(** * kibana-mcp: the server module (src/kibana_mcp/server.py)

    A shallow embedding of the credential resolver
    ([configure_http_client]), the client teardown ([close_http_client]),
    the three tool handlers ([tag_alert], [adjust_alert_status],
    [get_alerts]) and the start-up / shutdown sequence ([run_server]),
    followed by the properties the specification states about them.

    Conventions of the embedding:
    - a Python [str] is the [string] of the bytes of its UTF-8 encoding,
      so that every Python string has a representative; whitespace is
      recognised on the encodings of the code points for which
      [str.isspace] holds;
    - [httpx] is outside the module: a client is represented by the
      arguments of its constructor call, and the two ways the constructor
      rejects them (an invalid base URL, a header value that is not
      ASCII) are part of the model;
    - a Python [dict] is a [gmap] with string keys;
    - global state (the module-level [http_client]) and the state of the
      remote backend are threaded explicitly; every observable action
      (a log record, the construction or the closing of the client, a
      backend call, a request served by the run loop) is appended to a
      trace of events;
    - an exception is an outcome [Raised e]. *)

From stdpp Require Import gmap strings list fin_maps.
From Stdlib Require Import ZArith Ascii String.

Local Open Scope string_scope.
Local Open Scope list_scope.

(** ** Python string operations used by the module *)

Module PyStr.

(** [str.strip()] removes, at both ends, the characters for which
    [str.isspace] holds: U+0009..U+000D, U+001C..U+0020, U+0085, U+00A0,
    U+1680, U+2000..U+200A, U+2028, U+2029, U+202F, U+205F and U+3000.
    In UTF-8 the first ten are one byte, the next two are C2 85 and
    C2 A0, and the others are three bytes starting with E1, E2 or E3. *)

(** A one-byte whitespace character. *)
Definition isspace (c : ascii) : bool :=
  let n := nat_of_ascii c in
  ((9 <=? n)%nat && (n <=? 13)%nat) || ((28 <=? n)%nat && (n <=? 32)%nat).

(** The lead byte C2 and the second bytes 85 and A0. *)
Definition lead2 (c1 : ascii) : bool := (nat_of_ascii c1 =? 194)%nat.

Definition isspace2 (c2 : ascii) : bool :=
  let n := nat_of_ascii c2 in (n =? 133)%nat || (n =? 160)%nat.

(** The lead bytes E1, E2, E3 and the three-byte whitespace characters:
    E1 9A 80; E2 80 80..8A, E2 80 A8, E2 80 A9, E2 80 AF; E2 81 9F;
    E3 80 80. *)
Definition lead3 (c1 : ascii) : bool :=
  let n := nat_of_ascii c1 in (225 <=? n)%nat && (n <=? 227)%nat.

Definition isspace3 (c1 c2 c3 : ascii) : bool :=
  let n1 := nat_of_ascii c1 in
  let n2 := nat_of_ascii c2 in
  let n3 := nat_of_ascii c3 in
  ((n1 =? 225)%nat && (n2 =? 154)%nat && (n3 =? 128)%nat)
  || ((n1 =? 226)%nat && (n2 =? 128)%nat
      && (((128 <=? n3)%nat && (n3 <=? 138)%nat)
          || (n3 =? 168)%nat || (n3 =? 169)%nat || (n3 =? 175)%nat))
  || ((n1 =? 226)%nat && (n2 =? 129)%nat && (n3 =? 159)%nat)
  || ((n1 =? 227)%nat && (n2 =? 128)%nat && (n3 =? 128)%nat).

(** [s.lstrip()] *)
Fixpoint lstrip (s : string) : string :=
  match s with
  | EmptyString => EmptyString
  | String c1 s1 =>
      if isspace c1 then lstrip s1
      else if lead2 c1 then
        match s1 with
        | String c2 s2 => if isspace2 c2 then lstrip s2 else s
        | EmptyString => s
        end
      else if lead3 c1 then
        match s1 with
        | String c2 (String c3 s3) =>
            if isspace3 c1 c2 c3 then lstrip s3 else s
        | _ => s
        end
      else s
  end.

(** [s.rstrip()]: a character is kept unless everything from it on is
    whitespace. *)
Fixpoint rstrip (s : string) : string :=
  match s with
  | EmptyString => EmptyString
  | String c s' =>
      match lstrip s with
      | EmptyString => EmptyString
      | _ => String c (rstrip s')
      end
  end.

(** [s.strip()] *)
Definition strip (s : string) : string := rstrip (lstrip s).

(** [s.isascii()]: every character is below U+0080, that is, every byte
    is below 128. *)
Fixpoint isascii (s : string) : bool :=
  match s with
  | EmptyString => true
  | String c s' => (nat_of_ascii c <? 128)%nat && isascii s'
  end.

(** [s.startswith(p)] *)
Definition startswith (s p : string) : bool := String.prefix p s.

(** [sub in s] *)
Fixpoint contains (sub s : string) : bool :=
  String.prefix sub s
  || match s with
     | EmptyString => false
     | String _ s' => contains sub s'
     end.

(** Truthiness of the result of [os.getenv]: [None] and the empty
    string are falsy. *)
Definition truthy (o : option string) : bool :=
  match o with
  | Some (String _ _) => true
  | _ => false
  end.

(** [repr] of a string that holds no quote, no backslash and no
    unprintable character (all the module ever formats). *)
Definition repr (s : string) : string := "'" +:+ s +:+ "'".

Fixpoint join (sep : string) (l : list string) : string :=
  match l with
  | [] => ""
  | [x] => x
  | x :: l' => x +:+ sep +:+ join sep l'
  end.

(** [str] of a list of strings, as an f-string renders it. *)
Definition str_of_list (l : list string) : string :=
  "[" +:+ join ", " (map repr l) +:+ "]".

End PyStr.

(** ** Data *)

(** A client, represented by the arguments [httpx.AsyncClient] is
    constructed with.  What [httpx] derives from them (the normalised
    URL, its default headers, the header that carries basic auth) is not
    part of the module. *)
Record AsyncClient := mkAsyncClient {
  base_url : string;
  headers : gmap string string;
  timeout : Z;                       (* seconds *)
  verify : bool;
  auth : option (string * string)
}.

(** [mcp.types.TextContent] *)
Record TextContent := mkTextContent {
  type : string;
  text : string
}.

(** Keyword-argument values handed to a backend-call function. *)
Inductive value :=
| VStr (s : string)
| VInt (z : Z)
| VList (l : list string).

(** Exceptions, by the classes the module distinguishes. *)
Inductive exn :=
| ValueError (msg : string)
| RuntimeError (msg : string)
| OtherException (msg : string)   (* any other subclass of Exception *)
| NonException (msg : string).    (* KeyboardInterrupt, SystemExit, ... *)

(** [isinstance(e, Exception)] *)
Definition is_Exception (e : exn) : bool :=
  match e with
  | NonException _ => false
  | _ => true
  end.

(** [isinstance(e, RuntimeError)] *)
Definition is_RuntimeError (e : exn) : bool :=
  match e with
  | RuntimeError _ => true
  | _ => false
  end.

(** [str(e)] *)
Definition str_of_exn (e : exn) : string :=
  match e with
  | ValueError m | RuntimeError m | OtherException m | NonException m => m
  end.

Inductive level := INFO | WARNING | ERROR.

(** A request the run loop dispatches to a registered handler. *)
Inductive request :=
| CallTagAlert (alert_id : string) (tags : list string)
| CallAdjustAlertStatus (alert_id new_status : string)
| CallGetAlerts (limit : option Z) (search_text : option string)
| ReadAlertResource (alert_id : string)
| GetKibanaPrompt (prompt_name : string).

Inductive event :=
| Log (lvl : level) (msg : string)
| ClientCreated (c : AsyncClient)
| ClientClosing (c : AsyncClient)
| WrapperEntered (tool_name : string)
| BackendCalled (tool_name : string) (client : option AsyncClient)
                (kwargs : gmap string value)
| LoopEntered
| LoopLeft
| Served (r : request).

Inductive outcome (A : Type) :=
| Returned (a : A)
| Raised (e : exn).
Arguments Returned {A} a.
Arguments Raised {A} e.

(** What the module relies on [httpx] for when a client is constructed:
    the verdict of its URL parser on the base URL ([Some msg]: it raises
    [InvalidURL(msg)]), and the message of the [UnicodeEncodeError] it
    raises for a header set that holds a value that is not ASCII. *)
Record HttpxLibrary := mkHttpxLibrary {
  invalid_url : string -> option string;
  encode_error : gmap string string -> string
}.

(** Every header value encodes as ASCII. *)
Definition ascii_values (headers : gmap string string) : bool :=
  bool_decide (map_Forall (fun _ v => PyStr.isascii v = true) headers).

(** ** Effects: global state, trace and exceptions *)

Section Server.

(** State of the remote backend (alerts, their tags and statuses). *)
Variable B : Type.

Record world := mkWorld {
  http_client : option AsyncClient;   (* the module-level global *)
  backend : B
}.

(** A computation runs from a world to an outcome, the world it leaves
    and the events it produced, oldest first. *)
Definition M (A : Type) : Type := world -> outcome A * world * list event.

#[global] Instance M_ret : MRet M := fun A a w => (Returned a, w, []).

#[global] Instance M_bind : MBind M := fun A A' k c w =>
  match c w with
  | (Returned a, w', t) => let '(r, w'', t') := k a w' in (r, w'', (t ++ t')%list)
  | (Raised e, w', t) => (Raised e, w', t)
  end.

Definition raise {A} (e : exn) : M A := fun w => (Raised e, w, []).

Definition emit (ev : event) : M unit := fun w => (Returned tt, w, [ev]).

Definition get_http_client : M (option AsyncClient) :=
  fun w => (Returned (http_client w), w, []).

Definition set_http_client (c : option AsyncClient) : M unit :=
  fun w => (Returned tt, mkWorld c (backend w), []).

(** [try: body  except <caught>: handler] *)
Definition try_except {A} (body : M A) (caught : exn -> bool)
    (handler : exn -> M A) : M A := fun w =>
  match body w with
  | (Raised e, w', t) =>
      if caught e
      then let '(r, w'', t') := handler e w' in (r, w'', (t ++ t')%list)
      else (Raised e, w', t)
  | r => r
  end.

(** [try: body  finally: final]: [final] always runs; an exception it
    raises replaces the pending outcome. *)
Definition try_finally {A} (body : M A) (final : M unit) : M A := fun w =>
  let '(r, w', t) := body w in
  match final w' with
  | (Returned _, w'', t') => (r, w'', (t ++ t')%list)
  | (Raised e, w'', t') => (Raised e, w'', (t ++ t')%list)
  end.

Definition logger_info (msg : string) : M unit := emit (Log INFO msg).
Definition logger_warning (msg : string) : M unit := emit (Log WARNING msg).
Definition logger_error (msg : string) : M unit := emit (Log ERROR msg).

(** ** The credential resolver *)

(** The [httpx] in use. *)
Variable lib : HttpxLibrary.

(** [httpx.AsyncClient(base_url=.., headers=.., timeout=.., verify=..,
    **auth_config)].  The constructor first parses the base URL and
    raises [InvalidURL] (an [Exception]) when it is not valid, then
    encodes the header values as ASCII and raises [UnicodeEncodeError] (a
    [ValueError]) when one cannot be encoded; otherwise the client
    exists.  It is given [auth] exactly when [auth_config] has that
    key. *)
Definition httpx_AsyncClient (base_url : string)
    (headers : gmap string string) (timeout : Z) (verify : bool)
    (auth_config : gmap string (string * string)) : M AsyncClient :=
  match invalid_url lib base_url with
  | Some msg => raise (OtherException msg)
  | None =>
      if ascii_values headers
      then
        let c := mkAsyncClient base_url headers timeout verify
                   (auth_config !! "auth") in
        emit (ClientCreated c);; mret c
      else raise (ValueError (encode_error lib headers))
  end.

(** [configure_http_client()], with the process environment
    ([os.getenv]) as its argument. *)
Definition configure_http_client (environ : gmap string string) : M unit :=
  let kibana_url := environ !! "KIBANA_URL" in
  let encoded_api_key := environ !! "KIBANA_API_KEY" in
  let kibana_username := environ !! "KIBANA_USERNAME" in
  let kibana_password := environ !! "KIBANA_PASSWORD" in
  (if negb (PyStr.truthy kibana_url)
   then logger_error "KIBANA_URL environment variable not set.";;
        raise (ValueError "KIBANA_URL environment variable not set.")
   else mret tt);;
  let headers : gmap string string :=
    {[ "kbn-xsrf" := "true"; "Content-Type" := "application/json" ]} in
  let auth_config : gmap string (string * string) := ∅ in
  let auth_method_used := "None" in
  '(headers, auth_config, auth_method_used) ←
    (if PyStr.truthy encoded_api_key
     then
       let key := default "" encoded_api_key in
       logger_info "Configuring authentication using API Key.";;
       let auth_header :=
         if PyStr.startswith (PyStr.strip key) "ApiKey "
         then key
         else "ApiKey " +:+ PyStr.strip key in
       mret (<["Authorization" := auth_header]> headers, auth_config,
             "API Key")
     else if PyStr.truthy kibana_username && PyStr.truthy kibana_password
     then
       let user := default "" kibana_username in
       let password := default "" kibana_password in
       logger_info
         ("Configuring authentication using Basic auth for user: "
          +:+ user);;
       mret (headers, <["auth" := (user, password)]> auth_config,
             "Username/Password")
     else
       logger_error "Kibana authentication not configured.";;
       raise (ValueError "Kibana authentication not configured. Set KIBANA_API_KEY or both KIBANA_USERNAME/PASSWORD."));
  logger_info ("Creating HTTP client for Kibana at "
               +:+ default "" kibana_url +:+ " using "
               +:+ auth_method_used +:+ ".");;
  c ← httpx_AsyncClient (default "" kibana_url) headers 30 false
        auth_config;
  set_http_client (Some c).

(** Outcome of [await client.aclose()] run by [asyncio.run] on a fresh
    event loop: [None] when it completes, [Some e] when it raises. *)
Variable aclose_result : AsyncClient -> option exn.

Definition aclose (c : AsyncClient) : M unit :=
  emit (ClientClosing c);;
  match aclose_result c with
  | None => mret tt
  | Some e => raise e
  end.

(** [close_http_client()] *)
Definition close_http_client : M unit :=
  c ← get_http_client;
  match c with
  | Some client =>
      logger_info "Closing HTTP client...";;
      aclose client;;
      set_http_client None;;
      logger_info "HTTP client closed."
  | None => mret tt
  end.

(** ** The collaborators imported from [kibana_mcp.tools],
    [kibana_mcp.resources] and [kibana_mcp.prompts] *)

(** Modelled from the spec: the typed errors a backend-call function
    raises ([kibana_mcp.tools] is not among the sources).  The spec's
    backend contract lists connectivity failure, timeout, backend-rejected
    (non-2xx) and malformed response, and the wrapper also normalises an
    unexpected internal fault; each carries a diagnostic. *)
Inductive failure_class :=
| BackendConnectivityError
| BackendTimeoutError
| BackendRejectedError
| BackendMalformedResponseError
| InternalFault.

Record tool_error := mkToolError {
  failure : failure_class;
  diagnostic : string
}.

(** A backend-call function: given the client and the keyword arguments
    it performs its request against the backend and returns a
    description of the outcome or raises a typed error. *)
Definition tool_impl : Type :=
  option AsyncClient -> gmap string value -> B -> (string + tool_error) * B.

Variable _call_tag_alert : tool_impl.
Variable _call_adjust_alert_status : tool_impl.
Variable _call_get_alerts : tool_impl.

(** [handle_read_resource(uri=..)] and [handle_get_prompt(uri=..)]: they
    return the rendered content or raise. *)
Variable handle_read_resource : string -> B -> outcome string * B.
Variable handle_get_prompt : string -> B -> outcome string * B.

Definition call_backend {A} (f : B -> A * B) : M A := fun w =>
  let '(a, b) := f (backend w) in
  (Returned a, mkWorld (http_client w) b, []).

Definition call_raising {A} (f : B -> outcome A * B) : M A := fun w =>
  let '(r, b) := f (backend w) in
  (r, mkWorld (http_client w) b, []).

(** Modelled from the spec: the message prefix of a failure class
    ([kibana_mcp.tools] is not among the sources); distinct classes have
    distinct prefixes. *)
Definition failure_prefix (c : failure_class) : string :=
  match c with
  | BackendConnectivityError => "Connectivity failure"
  | BackendTimeoutError => "Timeout"
  | BackendRejectedError => "Backend rejected the request"
  | BackendMalformedResponseError => "Malformed backend response"
  | InternalFault => "Internal fault"
  end.

(** Modelled from the spec: the diagnostic text of a failed tool call
    ([kibana_mcp.tools] is not among the sources): the class prefix, the
    tool name and the diagnostic. *)
Definition failure_text (tool_name : string) (e : tool_error) : string :=
  failure_prefix (failure e) +:+ " in tool '" +:+ tool_name +:+ "': "
  +:+ diagnostic e.

(** Modelled from the spec: [execute_tool_safely] ([kibana_mcp.tools] is
    not among the sources).  It invokes the backend-call function with
    the client and the arguments; a returned description becomes a
    single-item text envelope, and any error raised is caught here and
    becomes a single-item text envelope naming the tool and the
    diagnostic. *)
Definition execute_tool_safely (tool_name : string)
    (tool_impl_func : tool_impl) (http_client : option AsyncClient)
    (kwargs : gmap string value) : M (list TextContent) :=
  emit (WrapperEntered tool_name);;
  emit (BackendCalled tool_name http_client kwargs);;
  r ← call_backend (tool_impl_func http_client kwargs);
  match r with
  | inl description => mret [mkTextContent "text" description]
  | inr e => mret [mkTextContent "text" (failure_text tool_name e)]
  end.

(** ** Resource, prompt and tool handlers *)

Definition read_alert_resource (alert_id : string) : M string :=
  let uri := "alert://" +:+ alert_id in
  logger_info ("Handling read_resource for URI: " +:+ uri);;
  call_raising (handle_read_resource uri).

Definition get_kibana_prompt (prompt_name : string) : M string :=
  let uri := "prompt://" +:+ prompt_name in
  logger_info ("Handling get_prompt for URI: " +:+ uri);;
  call_raising (handle_get_prompt uri).

Definition tag_alert (alert_id : string) (tags : list string)
    : M (list TextContent) :=
  client ← get_http_client;
  execute_tool_safely "tag_alert" _call_tag_alert client
    {[ "alert_id" := VStr alert_id; "tags_to_add" := VList tags ]}.

Definition valid_statuses : list string :=
  ["open"; "acknowledged"; "closed"].

Definition adjust_alert_status (alert_id new_status : string)
    : M (list TextContent) :=
  if negb (bool_decide (new_status ∈ valid_statuses))
  then
    let err_msg :=
      "Invalid status '" +:+ new_status +:+ "'. Must be one of "
      +:+ PyStr.str_of_list valid_statuses +:+ "." in
    logger_warning
      ("Tool 'adjust_alert_status' called with invalid status for alert "
       +:+ alert_id +:+ ": " +:+ new_status);;
    mret [mkTextContent "text" err_msg]
  else
    client ← get_http_client;
    execute_tool_safely "adjust_alert_status" _call_adjust_alert_status
      client
      {[ "alert_id" := VStr alert_id; "new_status" := VStr new_status ]}.

(** [get_alerts(limit=20, search_text="*")]: an argument the caller
    leaves out is [None] and takes its default. *)
Definition get_alerts (limit : option Z) (search_text : option string)
    : M (list TextContent) :=
  let limit := default 20%Z limit in
  let search_text := default "*" search_text in
  client ← get_http_client;
  execute_tool_safely "get_alerts" _call_get_alerts client
    {[ "limit" := VInt limit; "search_text" := VStr search_text ]}.

(** ** The run loop and the server life cycle *)

(** [mcp.run()] is FastMCP's loop, not part of the module.  One run of
    it is represented by the requests it receives, in order, and the way
    it ends ([None]: it returns; [Some e]: it raises [e]). *)
Variable incoming : list request.
Variable loop_end : option exn.

(** The loop hands a request to its registered handler and answers the
    caller, with the handler's result or with a protocol error when the
    handler raises. *)
Definition dispatch (r : request) : M unit :=
  try_except
    match r with
    | CallTagAlert alert_id tags => tag_alert alert_id tags;; mret tt
    | CallAdjustAlertStatus alert_id new_status =>
        adjust_alert_status alert_id new_status;; mret tt
    | CallGetAlerts limit search_text =>
        get_alerts limit search_text;; mret tt
    | ReadAlertResource alert_id => read_alert_resource alert_id;; mret tt
    | GetKibanaPrompt prompt_name => get_kibana_prompt prompt_name;; mret tt
    end
    (fun _ => true) (fun _ => mret tt);;
  emit (Served r).

Fixpoint serve (rs : list request) : M unit :=
  match rs with
  | [] => mret tt
  | r :: rs' => dispatch r;; serve rs'
  end.

(** [mcp.run()]: handlers are called from inside the loop only. *)
Definition mcp_run : M unit :=
  emit LoopEntered;;
  serve incoming;;
  emit LoopLeft;;
  match loop_end with
  | None => mret tt
  | Some e => raise e
  end.

(** [run_server()] *)
Definition run_server (environ : gmap string string) : M unit :=
  set_http_client None;;
  try_finally
    (try_except
       (configure_http_client environ;;
        logger_info "Starting FastMCP server run loop...";;
        mcp_run;;
        logger_info "FastMCP server run loop finished normally.")
       is_Exception
       (fun e => logger_error ("Error during server run: "
                               +:+ str_of_exn e)))
    (logger_info "Shutting down server...";;
     client ← get_http_client;
     if bool_decide (is_Some client)
     then
       try_except close_http_client is_RuntimeError
         (fun re => logger_error
            ("Error closing HTTP client in finally block: "
             +:+ str_of_exn re))
     else
       logger_info "HTTP client was not initialized or already closed.").

End Server.

Arguments mkWorld {B}.
Arguments http_client {B}.
Arguments backend {B}.
Arguments logger_info {B}.
Arguments set_http_client {B}.
Arguments httpx_AsyncClient {B}.
Arguments configure_http_client {B}.
Arguments close_http_client {B}.
Arguments execute_tool_safely {B}.
Arguments tag_alert {B}.
Arguments adjust_alert_status {B}.
Arguments get_alerts {B}.
Arguments read_alert_resource {B}.
Arguments get_kibana_prompt {B}.
Arguments dispatch {B}.
Arguments serve {B}.
Arguments mcp_run {B}.
Arguments run_server {B}.

(** ** Vocabulary of the specification *)

(** What is left of a string after its first character, when that
    character is whitespace. *)
Definition ws_head (s : string) : option string :=
  match s with
  | EmptyString => None
  | String c1 s1 =>
      if PyStr.isspace c1 then Some s1
      else if PyStr.lead2 c1 then
        match s1 with
        | String c2 s2 => if PyStr.isspace2 c2 then Some s2 else None
        | EmptyString => None
        end
      else if PyStr.lead3 c1 then
        match s1 with
        | String c2 (String c3 s3) =>
            if PyStr.isspace3 c1 c2 c3 then Some s3 else None
        | _ => None
        end
      else None
  end.

(** A string made of whitespace only. *)
Definition all_space (s : string) : bool :=
  match PyStr.lstrip s with
  | EmptyString => true
  | _ => false
  end.

(** The Authorization value the specification describes for an API key:
    the key as supplied when its trimmed form already starts with the
    scheme prefix, else the scheme token, one space and the trimmed
    key. *)
Definition expected_authorization (key : string) : string :=
  if PyStr.startswith (PyStr.strip key) "ApiKey "
  then key
  else "ApiKey" +:+ " " +:+ PyStr.strip key.

(** The two credential options of a configuration, by truthiness. *)
Definition api_key_set (environ : gmap string string) : bool :=
  PyStr.truthy (environ !! "KIBANA_API_KEY").

Definition basic_auth_set (environ : gmap string string) : bool :=
  PyStr.truthy (environ !! "KIBANA_USERNAME")
  && PyStr.truthy (environ !! "KIBANA_PASSWORD").

Definition base_url_set (environ : gmap string string) : bool :=
  PyStr.truthy (environ !! "KIBANA_URL").

(** The two errors the resolver raises, both a [ValueError]: they are
    the configuration errors of the specification, for a missing base URL
    and for missing credentials. *)
Definition missing_base_url : exn :=
  ValueError "KIBANA_URL environment variable not set.".

Definition no_credentials : exn :=
  ValueError "Kibana authentication not configured. Set KIBANA_API_KEY or both KIBANA_USERNAME/PASSWORD.".

(** The header set every client starts from. *)
Definition fixed_headers : gmap string string :=
  {[ "kbn-xsrf" := "true"; "Content-Type" := "application/json" ]}.

(** Events by kind. *)
Definition is_closing (ev : event) : bool :=
  match ev with ClientClosing _ => true | _ => false end.

Definition is_created (ev : event) : bool :=
  match ev with ClientCreated _ => true | _ => false end.

Definition is_served (ev : event) : bool :=
  match ev with Served _ => true | _ => false end.

Definition is_loop (ev : event) : bool :=
  match ev with LoopEntered | LoopLeft => true | _ => false end.

Definition is_log (ev : event) : bool :=
  match ev with Log _ _ => true | _ => false end.

(** What happens while a request is served: log records, the wrapper,
    a backend call, the answer. *)
Definition during_serving (ev : event) : bool :=
  match ev with
  | Log _ _ | WrapperEntered _ | BackendCalled _ _ _ | Served _ => true
  | _ => false
  end.

(** An event that, if it is a backend call, hands [cl] to the
    backend-call function. *)
Definition called_with (cl : option AsyncClient) (ev : event) : Prop :=
  ∀ n c k, ev = BackendCalled n c k → c = cl.

(** The single-item text envelope holding [t]. *)
Definition text_envelope (t : string) : list TextContent :=
  [mkTextContent "text" t].



(** Resolution succeeds: it returns, it constructs exactly the client it
    leaves in the global, and that client satisfies [P]. *)
Definition resolves_to {B} (lib : HttpxLibrary)
    (environ : gmap string string) (w : world B)
    (P : AsyncClient → Prop) : Prop :=
  ∃ c, (configure_http_client lib environ w).1.1 = Returned tt
       ∧ http_client (configure_http_client lib environ w).1.2 = Some c
       ∧ filter (λ ev, is_created ev = true)
           (configure_http_client lib environ w).2 = [ClientCreated c]
       ∧ P c.

(** Resolution fails with [e]: the world is left as it was and no client
    is constructed. *)
Definition fails_with {B} (lib : HttpxLibrary)
    (environ : gmap string string) (w : world B) (e : exn) : Prop :=
  (configure_http_client lib environ w).1.1 = Raised e
  ∧ (configure_http_client lib environ w).1.2 = w
  ∧ Forall (λ ev, is_created ev = false)
      (configure_http_client lib environ w).2.

(** In a trace, the client [c] is closed once, after the run loop was
    left, and nothing is served and no loop is entered afterwards. *)
Definition released_once_after_loop (c : AsyncClient) (t : list event)
    : Prop :=
  ∃ t1 t2, t = t1 ++ ClientClosing c :: t2
           ∧ LoopLeft ∈ t1
           ∧ Forall (λ ev, is_closing ev = false) (t1 ++ t2)
           ∧ Forall (λ ev, is_served ev = false ∧ is_loop ev = false) t2.

(** ** Sample inputs *)

(** The key "clé", whose last character is the two bytes C3 A9. *)
Definition key_cle : string :=
  "cl" +:+ String (ascii_of_nat 195) (String (ascii_of_nat 169) "").

(** The key "ApiKey ñ" (C3 B1), already prefixed. *)
Definition key_prefixed_n : string :=
  "ApiKey " +:+ String (ascii_of_nat 195) (String (ascii_of_nat 177) "").

(** An [httpx] that answers as the real one does on the inputs used
    below: it takes the sample base URL, refuses a port that is not a
    number, and reports the first character it cannot encode. *)
Definition sample_lib : HttpxLibrary :=
  mkHttpxLibrary
    (λ url, if String.eqb url "http://kibana:abc"
            then Some "Invalid port: 'abc'"
            else None)
    (λ headers,
       if bool_decide (headers !! "Authorization"
                       = Some ("ApiKey " +:+ key_cle))
       then "'ascii' codec can't encode character '\xe9' in position 9: ordinal not in range(128)"
       else if bool_decide (headers !! "Authorization" = Some key_prefixed_n)
       then "'ascii' codec can't encode character '\xf1' in position 7: ordinal not in range(128)"
       else "ordinal not in range(128)").

Definition sample_env_api_key : gmap string string :=
  {[ "KIBANA_URL" := "https://kibana.example:5601";
     "KIBANA_API_KEY" := "  c2VjcmV0 " ]}.

Definition sample_env_basic : gmap string string :=
  {[ "KIBANA_URL" := "https://kibana.example:5601";
     "KIBANA_USERNAME" := "elastic";
     "KIBANA_PASSWORD" := "changeme" ]}.


(** The API-key configuration with the key "ApiKey ñ". *)
Definition sample_env_prefixed_n : gmap string string :=
  <["KIBANA_API_KEY" := key_prefixed_n]> sample_env_api_key.

Definition sample_world : world unit := mkWorld None tt.

Definition sample_client : AsyncClient :=
  mkAsyncClient "https://kibana.example:5601"
    (<["Authorization" := "ApiKey c2VjcmV0"]> fixed_headers) 30 false None.

Definition failing_backend : tool_impl unit := fun _ _ b =>
  (inr (mkToolError BackendTimeoutError "read timed out"), b).

Definition accepting_backend : tool_impl unit := fun _ _ b =>
  (inl "done", b).

Definition no_resource : string -> unit -> outcome string * unit :=
  fun uri b => (Raised (OtherException ("unknown resource " +:+ uri)), b).

(** ** Strings: prefixes, containment and trimming *)

Section StringFacts.

Lemma prefix_append (p s : string) : String.prefix p (p +:+ s) = true.
Proof.
  induction p as [|c p IH]; simpl.
  - by destruct s.
  - destruct (Ascii.ascii_dec c c); [apply IH | congruence].
Qed.

Lemma contains_of_prefix (sub s : string) :
  String.prefix sub s = true → PyStr.contains sub s = true.
Proof. intros H. destruct s; simpl; simpl in H; rewrite H; done. Qed.

Lemma contains_prefix (sub s : string) : PyStr.contains sub (sub +:+ s) = true.
Proof. apply contains_of_prefix, prefix_append. Qed.

Lemma contains_skip (sub a s : string) :
  PyStr.contains sub s = true → PyStr.contains sub (a +:+ s) = true.
Proof.
  intros H. induction a as [|c a IH]; simpl; [done|].
  rewrite IH. apply orb_true_r.
Qed.

Lemma contains_middle (sub a b : string) :
  PyStr.contains sub (a +:+ sub +:+ b) = true.
Proof. apply contains_skip, contains_prefix. Qed.

Lemma contains_end (sub a : string) : PyStr.contains sub (a +:+ sub) = true.
Proof.
  apply contains_skip, contains_of_prefix.
  induction sub as [|d sub IH]; simpl; [done|].
  destruct (Ascii.ascii_dec d d); [done | congruence].
Qed.

Lemma lstrip_unfold (s : string) :
  PyStr.lstrip s = match ws_head s with Some r => PyStr.lstrip r | None => s end.
Proof.
  destruct s as [|c1 s1]; [done|]. simpl.
  destruct (PyStr.isspace c1); [done|].
  destruct (PyStr.lead2 c1).
  { destruct s1 as [|c2 s2]; [done|]. by destruct (PyStr.isspace2 c2). }
  destruct (PyStr.lead3 c1); [|done].
  destruct s1 as [|c2 [|c3 s3]]; try done.
  by destruct (PyStr.isspace3 c1 c2 c3).
Qed.

Lemma ws_head_split (s r : string) :
  ws_head s = Some r → ∃ w, s = w +:+ r ∧ ws_head w = Some "".
Proof.
  destruct s as [|c1 s1]; [done|]. simpl.
  destruct (PyStr.isspace c1) eqn:E1.
  { intros [= ->]. exists (String c1 ""). split; [done|]. simpl. by rewrite E1. }
  destruct (PyStr.lead2 c1) eqn:E2.
  { destruct s1 as [|c2 s2]; [done|].
    destruct (PyStr.isspace2 c2) eqn:E3; [|done]. intros [= ->].
    exists (String c1 (String c2 "")). split; [done|]. simpl.
    by rewrite E1, E2, E3. }
  destruct (PyStr.lead3 c1) eqn:E4; [|done].
  destruct s1 as [|c2 [|c3 s3]]; try done.
  destruct (PyStr.isspace3 c1 c2 c3) eqn:E5; [|done]. intros [= ->].
  exists (String c1 (String c2 (String c3 ""))). split; [done|]. simpl.
  by rewrite E1, E2, E4, E5.
Qed.

Lemma append_cons (c : ascii) (a r : string) :
  String c a +:+ r = String c (a +:+ r).
Proof. reflexivity. Qed.


Lemma append_longer (w r : string) :
  w ≠ "" → (String.length r < String.length (w +:+ r))%nat.
Proof.
  destruct w as [|c w]; [done|]. intros _. rewrite append_cons.
  cbn [String.length]. induction w as [|d w IH]; [change ("" +:+ r) with r; lia|].
  rewrite append_cons. cbn [String.length]. lia.
Qed.

Lemma ws_head_shorter (s r : string) :
  ws_head s = Some r → (String.length r < String.length s)%nat.
Proof.
  intros (w & -> & Hw)%ws_head_split.
  apply append_longer. by intros ->.
Qed.

Lemma ws_head_app (a a' r : string) :
  ws_head a = Some a' → ws_head (a +:+ r) = Some (a' +:+ r).
Proof.
  destruct a as [|c1 s1]; [done|]. simpl.
  destruct (PyStr.isspace c1) eqn:E1; [by intros [= ->]|].
  destruct (PyStr.lead2 c1) eqn:E2.
  { destruct s1 as [|c2 s2]; [done|]. simpl.
    destruct (PyStr.isspace2 c2) eqn:E3; [|done]. by intros [= ->]. }
  destruct (PyStr.lead3 c1) eqn:E4; [|done].
  destruct s1 as [|c2 [|c3 s3]]; try done. simpl.
  destruct (PyStr.isspace3 c1 c2 c3) eqn:E5; [|done]. by intros [= ->].
Qed.

Lemma string_length_ind (P : string → Prop) :
  (∀ s, (∀ t, (String.length t < String.length s)%nat → P t) → P s) →
  ∀ s, P s.
Proof.
  intros H s. remember (String.length s) as n eqn:Hn. revert s Hn.
  induction n as [n IH] using lt_wf_ind. intros s ->.
  apply H. intros t Ht. by apply (IH _ Ht).
Qed.

Lemma lstrip_app_blank (a r : string) :
  PyStr.lstrip a = "" → PyStr.lstrip (a +:+ r) = PyStr.lstrip r.
Proof.
  revert r. induction a as [a IH] using string_length_ind. intros r Ha.
  rewrite lstrip_unfold in Ha.
  destruct (ws_head a) as [a'|] eqn:E.
  - rewrite (lstrip_unfold (a +:+ r)), (ws_head_app _ _ r E).
    apply IH; [by apply ws_head_shorter | done].
  - by subst a.
Qed.


Lemma ws_head_lstrip (s : string) : ws_head (PyStr.lstrip s) = None.
Proof.
  induction s as [s IH] using string_length_ind.
  rewrite lstrip_unfold. destruct (ws_head s) as [r|] eqn:E; [|done].
  apply IH. by apply ws_head_shorter.
Qed.

Lemma lstrip_fixed (s : string) : ws_head s = None → PyStr.lstrip s = s.
Proof. intros H. by rewrite lstrip_unfold, H. Qed.

Lemma rstrip_decompose (s : string) :
  ∃ r, s = PyStr.rstrip s +:+ r ∧ PyStr.lstrip r = "".
Proof.
  induction s as [|c s (r & Hs & Hr)]; [by exists ""|].
  cbn [PyStr.rstrip]. destruct (PyStr.lstrip (String c s)) eqn:E.
  - by exists (String c s).
  - exists r. split; [exact (f_equal (String c) Hs) | done].
Qed.

Lemma rstrip_not_blank (s : string) :
  PyStr.lstrip (PyStr.rstrip s) = "" → PyStr.rstrip s = "".
Proof.
  destruct s as [|c s]; [done|]. cbn [PyStr.rstrip].
  destruct (PyStr.lstrip (String c s)) eqn:E; [done|].
  intros Hb. destruct (rstrip_decompose s) as (r & Hs & Hr).
  rewrite Hs in E at 1.
  change (String c (PyStr.rstrip s +:+ r)) with (String c (PyStr.rstrip s) +:+ r) in E.
  rewrite (lstrip_app_blank _ r Hb), Hr in E. done.
Qed.

Lemma rstrip_idempotent (s : string) :
  PyStr.rstrip (PyStr.rstrip s) = PyStr.rstrip s.
Proof.
  induction s as [|c s IH]; [done|].
  destruct (PyStr.rstrip (String c s)) eqn:E; [done|]. rewrite <- E.
  pose proof (rstrip_not_blank (String c s)) as Hnb.
  cbn [PyStr.rstrip] in *.
  destruct (PyStr.lstrip (String c s)) eqn:El; [done|].
  cbn [PyStr.rstrip].
  destruct (PyStr.lstrip (String c (PyStr.rstrip s))) eqn:E2.
  - by specialize (Hnb eq_refl).
  - by rewrite IH.
Qed.

Lemma ws_head_rstrip (s : string) :
  ws_head s = None → ws_head (PyStr.rstrip s) = None.
Proof.
  intros H. destruct (ws_head (PyStr.rstrip s)) as [x|] eqn:E; [|done].
  destruct (rstrip_decompose s) as (r & Hs & _).
  rewrite Hs, (ws_head_app _ _ r E) in H. done.
Qed.

Lemma strip_idempotent (s : string) :
  PyStr.strip (PyStr.strip s) = PyStr.strip s.
Proof.
  unfold PyStr.strip.
  rewrite (lstrip_fixed (PyStr.rstrip (PyStr.lstrip s)))
    by apply ws_head_rstrip, ws_head_lstrip.
  apply rstrip_idempotent.
Qed.


Lemma strip_fixed_parts (t : string) :
  PyStr.strip t = t → PyStr.lstrip t = t ∧ PyStr.rstrip t = t.
Proof.
  intros H.
  assert (Hl : PyStr.lstrip t = t).
  { apply lstrip_fixed. rewrite <- H. apply ws_head_rstrip, ws_head_lstrip. }
  split; [done|]. unfold PyStr.strip in H. by rewrite Hl in H.
Qed.

Lemma strip_prefixed (t : string) :
  t ≠ "" → PyStr.strip t = t →
  PyStr.strip ("ApiKey " +:+ t) = "ApiKey " +:+ t.
Proof.
  intros Ht Hfix. destruct (strip_fixed_parts t Hfix) as [Hl Hr].
  change (PyStr.strip ("ApiKey " +:+ t))
    with ("ApiKey" +:+ PyStr.rstrip (String " " t)).
  cbn [PyStr.rstrip].
  change (PyStr.lstrip (String " " t)) with (PyStr.lstrip t).
  rewrite Hl, Hr. by destruct t.
Qed.

End StringFacts.

(** ** The credential resolver, case by case *)

Section Resolver.

Context {B : Type}.
Variable lib : HttpxLibrary.
Implicit Types (environ : gmap string string) (w : world B).

Lemma truthy_Some (o : option string) :
  PyStr.truthy o = true → ∃ s, o = Some s ∧ s ≠ "".
Proof. destruct o as [[|c s]|]; simpl; try done. intros _. by eexists. Qed.

Lemma fixed_headers_ascii :
  map_Forall (λ _ v, PyStr.isascii v = true) fixed_headers.
Proof.
  unfold fixed_headers. apply map_Forall_insert_2; [done|].
  by apply map_Forall_singleton.
Qed.

Lemma ascii_values_fixed : ascii_values fixed_headers = true.
Proof. apply bool_decide_eq_true_2, fixed_headers_ascii. Qed.

Lemma ascii_values_authorization (v : string) :
  ascii_values (<["Authorization" := v]> fixed_headers) = PyStr.isascii v.
Proof.
  unfold ascii_values. destruct (PyStr.isascii v) eqn:E.
  - apply bool_decide_eq_true_2, map_Forall_insert_2;
      [done | apply fixed_headers_ascii].
  - apply bool_decide_eq_false_2. intros H.
    specialize (H "Authorization" v (lookup_insert_eq _ _ _)).
    simpl in H. congruence.
Qed.

Lemma configure_without_url environ w :
  base_url_set environ = false →
  configure_http_client lib environ w =
    (Raised missing_base_url, w,
     [Log ERROR "KIBANA_URL environment variable not set."]).
Proof.
  unfold base_url_set, configure_http_client. intros ->. reflexivity.
Qed.

(** The API-key path, with the three things the constructor can do. *)
Lemma configure_api_key_path environ w :
  base_url_set environ = true →
  api_key_set environ = true →
  configure_http_client lib environ w =
    let url := default "" (environ !! "KIBANA_URL") in
    let key := default "" (environ !! "KIBANA_API_KEY") in
    let hdrs := <["Authorization" := expected_authorization key]>
                  fixed_headers in
    let c := mkAsyncClient url hdrs 30 false None in
    let logs :=
      [Log INFO "Configuring authentication using API Key.";
       Log INFO ("Creating HTTP client for Kibana at " +:+ url
                 +:+ " using API Key.")] in
    match invalid_url lib url with
    | Some msg => (Raised (OtherException msg), w, logs)
    | None =>
        if PyStr.isascii (expected_authorization key)
        then (Returned tt, mkWorld (Some c) (backend w),
              logs ++ [ClientCreated c])
        else (Raised (ValueError (encode_error lib hdrs)), w, logs)
    end.
Proof.
  unfold base_url_set, api_key_set. intros Hu Hk.
  rewrite <- ascii_values_authorization.
  unfold configure_http_client, httpx_AsyncClient. rewrite Hu, Hk.
  cbv zeta.
  destruct (invalid_url lib (default "" (environ !! "KIBANA_URL")));
    [reflexivity|].
  cbv beta iota zeta delta [mbind M_bind mret M_ret logger_info
    logger_error emit raise set_http_client negb].
  repeat match goal with |- context [ascii_values ?h] =>
    progress change (ascii_values h)
      with (ascii_values
              (<["Authorization" :=
                   expected_authorization
                     (default "" (environ !! "KIBANA_API_KEY"))]>
                 fixed_headers))
  end.
  destruct (ascii_values _); reflexivity.
Qed.


(** The basic-auth path: its headers are the fixed ones, so only the URL
    can be refused. *)
Lemma configure_basic_path environ w :
  base_url_set environ = true →
  api_key_set environ = false →
  basic_auth_set environ = true →
  configure_http_client lib environ w =
    let url := default "" (environ !! "KIBANA_URL") in
    let user := default "" (environ !! "KIBANA_USERNAME") in
    let password := default "" (environ !! "KIBANA_PASSWORD") in
    let c := mkAsyncClient url fixed_headers 30 false
               (Some (user, password)) in
    let logs :=
      [Log INFO ("Configuring authentication using Basic auth for user: "
                 +:+ user);
       Log INFO ("Creating HTTP client for Kibana at " +:+ url
                 +:+ " using Username/Password.")] in
    match invalid_url lib url with
    | Some msg => (Raised (OtherException msg), w, logs)
    | None => (Returned tt, mkWorld (Some c) (backend w),
               logs ++ [ClientCreated c])
    end.
Proof.
  unfold base_url_set, api_key_set, basic_auth_set. intros Hu Hk Hb.
  unfold configure_http_client, httpx_AsyncClient. rewrite Hu, Hk, Hb.
  cbv zeta.
  destruct (invalid_url lib (default "" (environ !! "KIBANA_URL")));
    [reflexivity|].
  cbv beta iota zeta delta [mbind M_bind mret M_ret logger_info
    logger_error emit raise set_http_client negb andb].
  repeat match goal with |- context [ascii_values ?h] =>
    progress change (ascii_values h) with (ascii_values fixed_headers)
  end.
  rewrite ascii_values_fixed. reflexivity.
Qed.

Lemma configure_with_api_key environ w :
  base_url_set environ = true →
  api_key_set environ = true →
  invalid_url lib (default "" (environ !! "KIBANA_URL")) = None →
  PyStr.isascii
    (expected_authorization (default "" (environ !! "KIBANA_API_KEY")))
  = true →
  configure_http_client lib environ w =
    let url := default "" (environ !! "KIBANA_URL") in
    let key := default "" (environ !! "KIBANA_API_KEY") in
    let c := mkAsyncClient url
               (<["Authorization" := expected_authorization key]>
                  fixed_headers)
               30 false None in
    (Returned tt, mkWorld (Some c) (backend w),
     [Log INFO "Configuring authentication using API Key.";
      Log INFO ("Creating HTTP client for Kibana at " +:+ url
                +:+ " using API Key.");
      ClientCreated c]).
Proof.
  intros Hu Hk Hurl Hascii.
  rewrite (configure_api_key_path environ w Hu Hk). cbv zeta.
  by rewrite Hurl, Hascii.
Qed.

Lemma configure_with_basic_auth environ w :
  base_url_set environ = true →
  api_key_set environ = false →
  basic_auth_set environ = true →
  invalid_url lib (default "" (environ !! "KIBANA_URL")) = None →
  configure_http_client lib environ w =
    let url := default "" (environ !! "KIBANA_URL") in
    let user := default "" (environ !! "KIBANA_USERNAME") in
    let password := default "" (environ !! "KIBANA_PASSWORD") in
    let c := mkAsyncClient url fixed_headers 30 false
               (Some (user, password)) in
    (Returned tt, mkWorld (Some c) (backend w),
     [Log INFO ("Configuring authentication using Basic auth for user: "
                +:+ user);
      Log INFO ("Creating HTTP client for Kibana at " +:+ url
                +:+ " using Username/Password.");
      ClientCreated c]).
Proof.
  intros Hu Hk Hb Hurl.
  rewrite (configure_basic_path environ w Hu Hk Hb). cbv zeta.
  by rewrite Hurl.
Qed.

Lemma configure_without_credentials environ w :
  base_url_set environ = true →
  api_key_set environ = false →
  basic_auth_set environ = false →
  configure_http_client lib environ w =
    (Raised no_credentials, w,
     [Log ERROR "Kibana authentication not configured."]).
Proof.
  unfold base_url_set, api_key_set, basic_auth_set, configure_http_client.
  intros -> -> ->. reflexivity.
Qed.

End Resolver.

(** ** Concrete checks of the embedding *)

Example strip_both_ends : PyStr.strip "  ApiKey abc  " = "ApiKey abc".
Proof. reflexivity. Qed.

Example strip_tab_and_newline :
  PyStr.strip (String (ascii_of_nat 9) ("k1" +:+ String (ascii_of_nat 10) ""))
  = "k1".
Proof. reflexivity. Qed.

Example strip_keeps_inner_space : PyStr.strip " a b " = "a b".
Proof. reflexivity. Qed.

Example strip_blank : PyStr.strip "   " = "".
Proof. reflexivity. Qed.

Example strip_unicode_whitespace :
  PyStr.strip
    (String (ascii_of_nat 194) (String (ascii_of_nat 160)
       ("k1" +:+ String (ascii_of_nat 226) (String (ascii_of_nat 128)
                   (String (ascii_of_nat 131) "")))))
  = "k1".
Proof. reflexivity. Qed.

Example strip_keeps_zero_width_space :
  PyStr.strip
    (String (ascii_of_nat 226) (String (ascii_of_nat 128)
       (String (ascii_of_nat 139) "k1")))
  = String (ascii_of_nat 226) (String (ascii_of_nat 128)
      (String (ascii_of_nat 139) "k1")).
Proof. reflexivity. Qed.

Example strip_keeps_accent : PyStr.strip (" " +:+ key_cle) = key_cle.
Proof. reflexivity. Qed.

Example isascii_examples :
  PyStr.isascii "ApiKey c2VjcmV0" = true ∧ PyStr.isascii key_cle = false.
Proof. split; reflexivity. Qed.

Example startswith_needs_the_space :
  PyStr.startswith "ApiKey" "ApiKey " = false
  ∧ PyStr.startswith "ApiKey x" "ApiKey " = true.
Proof. split; reflexivity. Qed.

Example authorization_of_bare_key :
  expected_authorization "  c2VjcmV0 " = "ApiKey c2VjcmV0".
Proof. reflexivity. Qed.

Example authorization_of_prefixed_key :
  expected_authorization " ApiKey c2VjcmV0 " = " ApiKey c2VjcmV0 ".
Proof. reflexivity. Qed.

Example authorization_of_blank_key : expected_authorization "  " = "ApiKey ".
Proof. reflexivity. Qed.

Example str_of_valid_statuses :
  PyStr.str_of_list valid_statuses = "['open', 'acknowledged', 'closed']".
Proof. reflexivity. Qed.

Example configure_sample_api_key :
  configure_http_client sample_lib sample_env_api_key sample_world =
    (Returned tt, mkWorld (Some sample_client) tt,
     [Log INFO "Configuring authentication using API Key.";
      Log INFO
        "Creating HTTP client for Kibana at https://kibana.example:5601 using API Key.";
      ClientCreated sample_client]).
Proof. reflexivity. Qed.

Example configure_sample_basic :
  (configure_http_client sample_lib sample_env_basic sample_world).2 =
    [Log INFO "Configuring authentication using Basic auth for user: elastic";
     Log INFO
       "Creating HTTP client for Kibana at https://kibana.example:5601 using Username/Password.";
     ClientCreated
       (mkAsyncClient "https://kibana.example:5601" fixed_headers 30 false
          (Some ("elastic", "changeme")))].
Proof. reflexivity. Qed.

Example configure_username_without_password :
  configure_http_client sample_lib
    (delete "KIBANA_PASSWORD" sample_env_basic) sample_world =
    (Raised no_credentials, sample_world,
     [Log ERROR "Kibana authentication not configured."]).
Proof. reflexivity. Qed.

Example configure_refused_url :
  configure_http_client sample_lib
    (<["KIBANA_URL" := "http://kibana:abc"]> sample_env_basic) sample_world =
    (Raised (OtherException "Invalid port: 'abc'"), sample_world,
     [Log INFO "Configuring authentication using Basic auth for user: elastic";
      Log INFO
        "Creating HTTP client for Kibana at http://kibana:abc using Username/Password."]).
Proof. reflexivity. Qed.

Example configure_unicode_whitespace_key :
  (configure_http_client sample_lib
     (<["KIBANA_API_KEY" :=
          String (ascii_of_nat 226) (String (ascii_of_nat 128)
            (String (ascii_of_nat 131) "c2VjcmV0"))]> sample_env_api_key)
     sample_world).1
  = (Returned tt, mkWorld (Some sample_client) tt).
Proof. vm_compute. reflexivity. Qed.

Example adjust_closed_times_out :
  adjust_alert_status failing_backend "a1" "closed" sample_world =
    (Returned
       (text_envelope
          "Timeout in tool 'adjust_alert_status': read timed out"),
     sample_world,
     [WrapperEntered "adjust_alert_status";
      BackendCalled "adjust_alert_status" None
        {[ "alert_id" := VStr "a1"; "new_status" := VStr "closed" ]}]).
Proof. reflexivity. Qed.

Example run_without_configuration :
  run_server sample_lib (λ _, None) failing_backend accepting_backend failing_backend
    no_resource no_resource [CallGetAlerts None None] None ∅ sample_world =
    (Returned tt, sample_world,
     [Log ERROR "KIBANA_URL environment variable not set.";
      Log ERROR
        "Error during server run: KIBANA_URL environment variable not set.";
      Log INFO "Shutting down server...";
      Log INFO "HTTP client was not initialized or already closed."]).
Proof. reflexivity. Qed.

Example run_interrupted :
  run_server sample_lib (λ _, None) failing_backend accepting_backend failing_backend
    no_resource no_resource [CallAdjustAlertStatus "a1" "open"]
    (Some (NonException "KeyboardInterrupt"))
    sample_env_api_key sample_world =
    (Raised (NonException "KeyboardInterrupt"), sample_world,
     [Log INFO "Configuring authentication using API Key.";
      Log INFO
        "Creating HTTP client for Kibana at https://kibana.example:5601 using API Key.";
      ClientCreated sample_client;
      Log INFO "Starting FastMCP server run loop...";
      LoopEntered;
      WrapperEntered "adjust_alert_status";
      BackendCalled "adjust_alert_status" (Some sample_client)
        {[ "alert_id" := VStr "a1"; "new_status" := VStr "open" ]};
      Served (CallAdjustAlertStatus "a1" "open");
      LoopLeft;
      Log INFO "Shutting down server...";
      Log INFO "Closing HTTP client...";
      ClientClosing sample_client;
      Log INFO "HTTP client closed."]).
Proof. vm_compute. reflexivity. Qed.

(** ** Properties of the credential resolver *)

Section ResolverProperties.

Context {B : Type}.
Variable lib : HttpxLibrary.
Implicit Types (environ : gmap string string) (w : world B).

Lemma fixed_headers_xsrf : fixed_headers !! "kbn-xsrf" = Some "true".
Proof. reflexivity. Qed.

Lemma fixed_headers_content_type :
  fixed_headers !! "Content-Type" = Some "application/json".
Proof. reflexivity. Qed.


Lemma resolves_with_api_key environ w :
  base_url_set environ = true →
  api_key_set environ = true →
  invalid_url lib (default "" (environ !! "KIBANA_URL")) = None →
  PyStr.isascii
    (expected_authorization (default "" (environ !! "KIBANA_API_KEY")))
  = true →
  resolves_to lib environ w (λ c,
    c = mkAsyncClient (default "" (environ !! "KIBANA_URL"))
          (<["Authorization" :=
               expected_authorization
                 (default "" (environ !! "KIBANA_API_KEY"))]> fixed_headers)
          30 false None).
Proof.
  intros Hu Hk Hurl Hascii. unfold resolves_to.
  rewrite (configure_with_api_key lib environ w Hu Hk Hurl Hascii). simpl.
  eexists. repeat split; reflexivity.
Qed.

Lemma resolves_with_basic_auth environ w :
  base_url_set environ = true →
  api_key_set environ = false →
  basic_auth_set environ = true →
  invalid_url lib (default "" (environ !! "KIBANA_URL")) = None →
  resolves_to lib environ w (λ c,
    c = mkAsyncClient (default "" (environ !! "KIBANA_URL")) fixed_headers
          30 false
          (Some (default "" (environ !! "KIBANA_USERNAME"),
                 default "" (environ !! "KIBANA_PASSWORD")))).
Proof.
  intros Hu Hk Hb Hurl. unfold resolves_to.
  rewrite (configure_with_basic_auth lib environ w Hu Hk Hb Hurl). simpl.
  eexists. repeat split; reflexivity.
Qed.

Lemma resolves_to_weaken environ w (P Q : AsyncClient → Prop) :
  (∀ c, P c → Q c) → resolves_to lib environ w P → resolves_to lib environ w Q.
Proof. intros HPQ (c & ? & ? & ? & ?). exists c. auto. Qed.

Lemma fails_without_url environ w :
  base_url_set environ = false → fails_with lib environ w missing_base_url.
Proof.
  intros Hu. unfold fails_with. rewrite (configure_without_url lib environ w Hu).
  simpl. repeat split. repeat constructor.
Qed.

Lemma fails_without_credentials environ w :
  base_url_set environ = true →
  api_key_set environ = false →
  basic_auth_set environ = false →
  fails_with lib environ w no_credentials.
Proof.
  intros Hu Hk Hb. unfold fails_with.
  rewrite (configure_without_credentials lib environ w Hu Hk Hb).
  simpl. repeat split. repeat constructor.
Qed.



(** Every successful resolution is one of the two authenticated cases,
    with arguments the constructor took. *)
Lemma returned_cases environ w :
  (configure_http_client lib environ w).1.1 = Returned tt →
  base_url_set environ = true
  ∧ invalid_url lib (default "" (environ !! "KIBANA_URL")) = None
  ∧ (api_key_set environ = true
     ∧ PyStr.isascii
         (expected_authorization (default "" (environ !! "KIBANA_API_KEY")))
       = true
     ∨ api_key_set environ = false ∧ basic_auth_set environ = true).
Proof.
  intros H.
  destruct (base_url_set environ) eqn:Hu.
  - split; [done|]. destruct (api_key_set environ) eqn:Hk.
    + rewrite (configure_api_key_path lib environ w Hu Hk) in H.
      cbv zeta in H.
      destruct (invalid_url lib _); [done|]. split; [done|]. left.
      split; [done|]. by destruct (PyStr.isascii _).
    + destruct (basic_auth_set environ) eqn:Hb.
      * rewrite (configure_basic_path lib environ w Hu Hk Hb) in H.
        cbv zeta in H.
        destruct (invalid_url lib _); [done|]. split; [done|]. by right.
      * by rewrite (configure_without_credentials lib environ w Hu Hk Hb) in H.
  - by rewrite (configure_without_url lib environ w Hu) in H.
Qed.

(** What every resolved client has, whichever method was selected. *)
Lemma resolved_client_facts environ w :
  (configure_http_client lib environ w).1.1 = Returned tt →
  resolves_to lib environ w (λ c,
    headers c !! "kbn-xsrf" = Some "true"
    ∧ headers c !! "Content-Type" = Some "application/json"
    ∧ verify c = false).
Proof.
  intros H.
  destruct (returned_cases environ w H) as (Hu & Hurl & [[Hk Ha] | [Hk Hb]]).
  - eapply resolves_to_weaken;
      [|exact (resolves_with_api_key environ w Hu Hk Hurl Ha)].
    intros c ->. simpl. rewrite !lookup_insert_ne by done.
    split; [apply fixed_headers_xsrf|].
    split; [apply fixed_headers_content_type | done].
  - eapply resolves_to_weaken;
      [|exact (resolves_with_basic_auth environ w Hu Hk Hb Hurl)].
    intros c ->. simpl.
    split; [apply fixed_headers_xsrf|].
    split; [apply fixed_headers_content_type | done].
Qed.

End ResolverProperties.

(** ** Claims about the credential resolver *)






(** A key that is already prefixed but not ASCII, "ApiKey ñ": the value
    handed to the constructor is the key as supplied, the constructor
    raises [UnicodeEncodeError] and the global stays empty. *)
Example configure_prefixed_non_ascii_key :
  sample_env_prefixed_n !! "KIBANA_API_KEY" = Some key_prefixed_n
  ∧ PyStr.startswith (PyStr.strip key_prefixed_n) "ApiKey " = true
  ∧ configure_http_client sample_lib sample_env_prefixed_n sample_world =
      (Raised
         (ValueError
            "'ascii' codec can't encode character '\xf1' in position 7: ordinal not in range(128)"),
       mkWorld None tt,
       [Log INFO "Configuring authentication using API Key.";
        Log INFO
          "Creating HTTP client for Kibana at https://kibana.example:5601 using API Key."]).
Proof. repeat split; reflexivity. Qed.

(** C6. When the base URL is absent or empty, resolution raises the
    configuration error for a missing base URL (in the code,
    [ValueError] with the message below) at once: the only event is the
    error record, whatever the credentials are, and the world is
    untouched (no authentication is selected and no client is
    constructed). *)
Theorem C6_missing_base_url {B : Type} (lib : HttpxLibrary)
    (environ : gmap string string) (w : world B) :
  environ !! "KIBANA_URL" = None ∨ environ !! "KIBANA_URL" = Some "" →
  configure_http_client lib environ w =
    (Raised (ValueError "KIBANA_URL environment variable not set."), w,
     [Log ERROR "KIBANA_URL environment variable not set."])
  ∧ fails_with lib environ w missing_base_url.
Proof.
  intros H.
  assert (Hu : base_url_set environ = false).
  { unfold base_url_set. by destruct H as [-> | ->]. }
  split; [apply configure_without_url, Hu | apply fails_without_url, Hu].
Qed.

Lemma C6_witness_empty_url :
  fails_with sample_lib (<["KIBANA_URL" := ""]> sample_env_api_key) sample_world
    missing_base_url.
Proof.
  apply (C6_missing_base_url sample_lib (<["KIBANA_URL" := ""]> sample_env_api_key)
           sample_world).
  right. reflexivity.
Defined.

(** C9. Presence of a credential is its truthiness: an empty API key is
    treated exactly as a missing one, a username/password pair with an
    empty member exactly as a missing pair, and a configuration whose
    only credentials are such empty strings fails with the
    no-credentials error. *)
Theorem C9_empty_credentials_are_absent {B : Type} (lib : HttpxLibrary)
    (environ : gmap string string) (w : world B) :
  (environ !! "KIBANA_API_KEY" = Some "" →
   configure_http_client lib environ w =
     configure_http_client lib (delete "KIBANA_API_KEY" environ) w)
  ∧ (environ !! "KIBANA_USERNAME" = Some ""
     ∨ environ !! "KIBANA_PASSWORD" = Some "" →
     configure_http_client lib environ w =
       configure_http_client lib
         (delete "KIBANA_USERNAME" (delete "KIBANA_PASSWORD" environ)) w)
  ∧ (base_url_set environ = true →
     environ !! "KIBANA_API_KEY" = Some "" →
     basic_auth_set environ = false →
     fails_with lib environ w no_credentials)
  ∧ (base_url_set environ = true →
     api_key_set environ = false →
     environ !! "KIBANA_USERNAME" = Some ""
     ∨ environ !! "KIBANA_PASSWORD" = Some "" →
     fails_with lib environ w no_credentials).
Proof.
  split; [|split; [|split]].
  - intros Hk. unfold configure_http_client.
    rewrite lookup_delete_eq, !lookup_delete_ne, Hk by done. reflexivity.
  - intros Hp. unfold configure_http_client.
    rewrite lookup_delete_eq, !lookup_delete_ne, lookup_delete_eq by done.
    destruct Hp as [-> | ->]; [reflexivity|].
    by destruct (environ !! "KIBANA_USERNAME") as [[|]|].
  - intros Hu Hk Hb. apply fails_without_credentials; [done| |done].
    unfold api_key_set. by rewrite Hk.
  - intros Hu Hk Hp. apply fails_without_credentials; [done|done|].
    unfold basic_auth_set. destruct Hp as [-> | ->]; [done|].
    apply andb_false_r.
Qed.

Lemma C9_witness_empty_api_key :
  fails_with sample_lib (<["KIBANA_API_KEY" := ""]> sample_env_api_key) sample_world
    no_credentials.
Proof.
  destruct (C9_empty_credentials_are_absent sample_lib
              (<["KIBANA_API_KEY" := ""]> sample_env_api_key) sample_world)
    as (_ & _ & H & _).
  apply H; reflexivity.
Defined.

(** ** The wrapper and the tool handlers *)

Section Handlers.

Context {B : Type}.
Implicit Types (w : world B) (f : tool_impl B).

Lemma execute_tool_safely_returns (n : string) f (c : option AsyncClient)
    (k : gmap string value) w :
  execute_tool_safely n f c k w =
    (Returned (text_envelope
                 match (f c k (backend w)).1 with
                 | inl description => description
                 | inr e => failure_text n e
                 end),
     mkWorld (http_client w) (f c k (backend w)).2,
     [WrapperEntered n; BackendCalled n c k]).
Proof.
  unfold execute_tool_safely, call_backend, mbind, M_bind, emit; simpl.
  by destruct (f c k (backend w)) as [[s|e] b'].
Qed.

Lemma failure_text_names (n : string) (e : tool_error) :
  PyStr.contains n (failure_text n e) = true
  ∧ PyStr.contains (diagnostic e) (failure_text n e) = true.
Proof.
  unfold failure_text. split.
  - do 2 apply contains_skip. apply contains_prefix.
  - do 3 apply contains_skip. apply contains_end.
Qed.

Lemma read_global_then (A : Type) (k : option AsyncClient → M B A) w :
  (client ← get_http_client B; k client) w = k (http_client w) w.
Proof.
  unfold mbind, M_bind, get_http_client.
  by destruct (k (http_client w) w) as [[r w'] t].
Qed.

Lemma tag_alert_delegates f (alert_id : string) (tags : list string) w :
  tag_alert f alert_id tags w =
    execute_tool_safely "tag_alert" f (http_client w)
      {[ "alert_id" := VStr alert_id; "tags_to_add" := VList tags ]} w.
Proof. apply read_global_then. Qed.

Lemma get_alerts_delegates f (limit : option Z)
    (search_text : option string) w :
  get_alerts f limit search_text w =
    execute_tool_safely "get_alerts" f (http_client w)
      {[ "limit" := VInt (default 20%Z limit);
         "search_text" := VStr (default "*" search_text) ]} w.
Proof. apply read_global_then. Qed.

Lemma adjust_alert_status_delegates f (alert_id new_status : string) w :
  new_status ∈ ["open"; "acknowledged"; "closed"] →
  adjust_alert_status f alert_id new_status w =
    execute_tool_safely "adjust_alert_status" f (http_client w)
      {[ "alert_id" := VStr alert_id; "new_status" := VStr new_status ]} w.
Proof.
  intros Hs. unfold adjust_alert_status, valid_statuses.
  rewrite bool_decide_eq_true_2 by done. apply read_global_then.
Qed.

Lemma adjust_alert_status_rejects f (alert_id new_status : string) w :
  new_status ∉ ["open"; "acknowledged"; "closed"] →
  adjust_alert_status f alert_id new_status w =
    (Returned
       (text_envelope
          ("Invalid status '" +:+ new_status
           +:+ "'. Must be one of ['open', 'acknowledged', 'closed'].")),
     w,
     [Log WARNING
        ("Tool 'adjust_alert_status' called with invalid status for alert "
         +:+ alert_id +:+ ": " +:+ new_status)]).
Proof.
  intros Hs. unfold adjust_alert_status, valid_statuses.
  rewrite bool_decide_eq_false_2 by done. reflexivity.
Qed.

End Handlers.

(** ** Claims about the tool handlers *)

(** C3. A status outside {open, acknowledged, closed} is rejected before
    any delegation: the handler returns a single-item text envelope whose
    text names the rejected value and the valid set, the only event is
    the warning record (the wrapper is not entered and no backend call is
    made) and the world is unchanged; a status inside the set is handed
    to the wrapper. *)
Theorem C3_status_validation {B : Type} (adj : tool_impl B)
    (alert_id new_status : string) (w : world B) :
  (new_status ∉ ["open"; "acknowledged"; "closed"] →
   let err_msg :=
     "Invalid status '" +:+ new_status
     +:+ "'. Must be one of ['open', 'acknowledged', 'closed']." in
   adjust_alert_status adj alert_id new_status w =
     (Returned (text_envelope err_msg), w,
      [Log WARNING
         ("Tool 'adjust_alert_status' called with invalid status for alert "
          +:+ alert_id +:+ ": " +:+ new_status)])
   ∧ PyStr.contains new_status err_msg = true
   ∧ PyStr.contains "['open', 'acknowledged', 'closed']" err_msg = true)
  ∧ (new_status ∈ ["open"; "acknowledged"; "closed"] →
     adjust_alert_status adj alert_id new_status w =
       execute_tool_safely "adjust_alert_status" adj (http_client w)
         {[ "alert_id" := VStr alert_id; "new_status" := VStr new_status ]}
         w).
Proof.
  split; intros Hs.
  - split; [exact (adjust_alert_status_rejects adj alert_id new_status w Hs)|].
    split.
    + apply contains_middle.
    + apply (contains_skip _ "Invalid status '"),
            (contains_skip _ new_status). reflexivity.
  - exact (adjust_alert_status_delegates adj alert_id new_status w Hs).
Qed.

Lemma C3_witness_rejected :
  adjust_alert_status accepting_backend "a1" "resolved" sample_world =
    (Returned
       (text_envelope
          "Invalid status 'resolved'. Must be one of ['open', 'acknowledged', 'closed']."),
     sample_world,
     [Log WARNING
        "Tool 'adjust_alert_status' called with invalid status for alert a1: resolved"]).
Proof.
  destruct (C3_status_validation accepting_backend "a1" "resolved"
              sample_world) as [H _].
  apply H. by rewrite !elem_of_cons, elem_of_nil; intros [|[|[|]]].
Defined.

(** C8. Without an explicit limit the backend search call receives
    limit 20, without an explicit search text it receives "*", and
    explicit arguments, whatever they are, reach the backend call as
    given: nothing is checked before delegating. *)
Theorem C8_get_alerts_defaults {B : Type} (get : tool_impl B)
    (w : world B) :
  (∀ search_text,
     get_alerts get None search_text w =
       execute_tool_safely "get_alerts" get (http_client w)
         {[ "limit" := VInt 20;
            "search_text" := VStr (default "*" search_text) ]} w)
  ∧ (∀ limit,
       get_alerts get limit None w =
         execute_tool_safely "get_alerts" get (http_client w)
           {[ "limit" := VInt (default 20%Z limit);
              "search_text" := VStr "*" ]} w)
  ∧ (∀ limit search_text,
       get_alerts get (Some limit) (Some search_text) w =
         execute_tool_safely "get_alerts" get (http_client w)
           {[ "limit" := VInt limit; "search_text" := VStr search_text ]} w)
  ∧ (∀ limit search_text,
       (get_alerts get limit search_text w).2 =
         [WrapperEntered "get_alerts";
          BackendCalled "get_alerts" (http_client w)
            {[ "limit" := VInt (default 20%Z limit);
               "search_text" := VStr (default "*" search_text) ]}])
  ∧ (get_alerts get None None w).2 =
      [WrapperEntered "get_alerts";
       BackendCalled "get_alerts" (http_client w)
         {[ "limit" := VInt 20; "search_text" := VStr "*" ]}].
Proof.
  repeat split; intros; rewrite get_alerts_delegates; try reflexivity;
    by rewrite execute_tool_safely_returns.
Qed.

(** C1. Every tool invocation returns a single-item text envelope and
    raises nothing; when the backend-call function it reaches raises an
    error (of any class), the text of that item names the tool and
    carries the error's diagnostic. *)
Theorem C1_failures_become_text_envelopes {B : Type}
    (tag adj get : tool_impl B) (w : world B) :
  (∀ alert_id tags, ∃ t,
     (tag_alert tag alert_id tags w).1.1 = Returned (text_envelope t)
     ∧ ∀ e b',
         tag (http_client w)
           {[ "alert_id" := VStr alert_id; "tags_to_add" := VList tags ]}
           (backend w) = (inr e, b') →
         PyStr.contains "tag_alert" t = true
         ∧ PyStr.contains (diagnostic e) t = true)
  ∧ (∀ alert_id new_status, ∃ t,
       (adjust_alert_status adj alert_id new_status w).1.1
         = Returned (text_envelope t)
       ∧ ∀ e b',
           new_status ∈ ["open"; "acknowledged"; "closed"] →
           adj (http_client w)
             {[ "alert_id" := VStr alert_id;
                "new_status" := VStr new_status ]}
             (backend w) = (inr e, b') →
           PyStr.contains "adjust_alert_status" t = true
           ∧ PyStr.contains (diagnostic e) t = true)
  ∧ (∀ limit search_text, ∃ t,
       (get_alerts get limit search_text w).1.1 = Returned (text_envelope t)
       ∧ ∀ e b',
           get (http_client w)
             {[ "limit" := VInt (default 20%Z limit);
                "search_text" := VStr (default "*" search_text) ]}
             (backend w) = (inr e, b') →
           PyStr.contains "get_alerts" t = true
           ∧ PyStr.contains (diagnostic e) t = true).
Proof.
  split; [|split].
  - intros alert_id tags.
    rewrite tag_alert_delegates, execute_tool_safely_returns.
    eexists. split; [reflexivity|].
    intros e b' ->. apply failure_text_names.
  - intros alert_id new_status.
    destruct (decide (new_status ∈ ["open"; "acknowledged"; "closed"]))
      as [Hin | Hout].
    + rewrite (adjust_alert_status_delegates adj alert_id new_status w Hin),
              execute_tool_safely_returns.
      eexists. split; [reflexivity|].
      intros e b' _ ->. apply failure_text_names.
    + rewrite (adjust_alert_status_rejects adj alert_id new_status w Hout).
      eexists. split; [reflexivity|]. done.
  - intros limit search_text.
    rewrite get_alerts_delegates, execute_tool_safely_returns.
    eexists. split; [reflexivity|].
    intros e b' ->. apply failure_text_names.
Qed.

Lemma C1_witness_timeout :
  ∃ t, (tag_alert failing_backend "a1" ["x"; "y"] sample_world).1.1
         = Returned (text_envelope t)
       ∧ PyStr.contains "tag_alert" t = true
       ∧ PyStr.contains "read timed out" t = true.
Proof.
  destruct (C1_failures_become_text_envelopes failing_backend
              failing_backend failing_backend sample_world) as [Htag _].
  destruct (Htag "a1" ["x"; "y"]) as (t & Ht & Hnames).
  exists t. split; [exact Ht|].
  apply (Hnames (mkToolError BackendTimeoutError "read timed out") tt).
  reflexivity.
Defined.

(** ** The run loop *)

Section RunLoop.

Context {B : Type}.
Variables (tag adj get : tool_impl B).
Variables (hr hp : string → B → outcome string * B).
Implicit Types (w : world B).

Ltac trace_facts :=
  repeat (apply Forall_cons_2 || apply Forall_nil_2);
  first [ reflexivity | by intros ??? [=] | by intros ??? [= _ <- _] ].

Lemma dispatch_returns (r : request) w :
  ∃ b' t, dispatch tag adj get hr hp r w
            = (Returned tt, mkWorld (http_client w) b', t)
          ∧ Forall (λ ev, during_serving ev = true) t
          ∧ Forall (called_with (http_client w)) t.
Proof.
  destruct r as [a tags | a s | l s | a | n];
    unfold dispatch, try_except, mbind, M_bind.
  - rewrite tag_alert_delegates, execute_tool_safely_returns.
    eexists _, _. split; [reflexivity | split; trace_facts].
  - destruct (decide (s ∈ ["open"; "acknowledged"; "closed"])) as [Hs | Hs].
    + rewrite (adjust_alert_status_delegates adj a s w Hs),
              execute_tool_safely_returns.
      eexists _, _. split; [reflexivity | split; trace_facts].
    + rewrite (adjust_alert_status_rejects adj a s w Hs).
      exists (backend w). destruct w. eexists.
      split; [reflexivity | split; trace_facts].
  - rewrite get_alerts_delegates, execute_tool_safely_returns.
    eexists _, _. split; [reflexivity | split; trace_facts].
  - unfold read_alert_resource, call_raising, logger_info, emit, mbind,
      M_bind.
    destruct (hr _ (backend w)) as [[s | e] b'];
      eexists _, _; (split; [reflexivity | split; trace_facts]).
  - unfold get_kibana_prompt, call_raising, logger_info, emit, mbind,
      M_bind.
    destruct (hp _ (backend w)) as [[s | e] b'];
      eexists _, _; (split; [reflexivity | split; trace_facts]).
Qed.

Lemma serve_returns (rs : list request) w :
  ∃ b' t, serve tag adj get hr hp rs w
            = (Returned tt, mkWorld (http_client w) b', t)
          ∧ Forall (λ ev, during_serving ev = true) t
          ∧ Forall (called_with (http_client w)) t.
Proof.
  revert w. induction rs as [|r rs IH]; intros w.
  - exists (backend w), []. destruct w.
    split; [reflexivity | split; constructor].
  - destruct (dispatch_returns r w) as (b1 & t1 & H1 & F1 & G1).
    destruct (IH (mkWorld (http_client w) b1)) as (b2 & t2 & H2 & F2 & G2).
    exists b2, (t1 ++ t2). split; [|split; by apply Forall_app].
    simpl. unfold mbind, M_bind. rewrite H1, H2. reflexivity.
Qed.

Lemma mcp_run_leaves (rs : list request) (loop_end : option exn) w :
  ∃ b' t, mcp_run tag adj get hr hp rs loop_end w
            = (match loop_end with
               | None => Returned tt
               | Some e => Raised e
               end,
               mkWorld (http_client w) b', LoopEntered :: t ++ [LoopLeft])
          ∧ Forall (λ ev, during_serving ev = true) t
          ∧ Forall (called_with (http_client w)) t.
Proof.
  destruct (serve_returns rs w) as (b' & t & H & F).
  exists b', t. split; [|done].
  unfold mcp_run, mbind, M_bind, emit. rewrite H.
  destruct loop_end; simpl; by rewrite ?app_nil_r.
Qed.

End RunLoop.

(** ** The server life cycle *)

(** Brings a trace built from nested appends to a right-nested list. *)
Ltac flatten_trace :=
  repeat (progress (simpl; rewrite <- ?app_assoc)).

Section LifeCycle.

Context {B : Type}.
Variable lib : HttpxLibrary.
Variable aclose_result : AsyncClient → option exn.
Variables (tag adj get : tool_impl B).
Variables (hr hp : string → B → outcome string * B).
Variable incoming : list request.
Variable loop_end : option exn.
Implicit Types (w : world B) (environ : gmap string string).

(** A run whose resolution fails: the error is logged, the loop is never
    entered and there is no client to close. *)
Lemma run_server_unconfigured environ w (e : exn) (t : list event) :
  is_Exception e = true →
  configure_http_client lib environ (mkWorld None (backend w))
    = (Raised e, mkWorld None (backend w), t) →
  run_server lib aclose_result tag adj get hr hp incoming loop_end environ w =
    (Returned tt, mkWorld None (backend w),
     t ++ [Log ERROR ("Error during server run: " +:+ str_of_exn e);
           Log INFO "Shutting down server...";
           Log INFO "HTTP client was not initialized or already closed."]).
Proof.
  intros He Hcfg.
  unfold run_server, try_finally, try_except, mbind, M_bind,
    set_http_client, logger_info, logger_error, emit, get_http_client.
  cbv beta iota. rewrite Hcfg. cbv beta iota. rewrite He.
  flatten_trace. reflexivity.
Qed.

(** A run whose resolution succeeds with client [c]: the loop is entered
    and left, and then, however the loop ended, [c] is closed. *)
Lemma run_server_configured environ w (c : AsyncClient) (t : list event) :
  configure_http_client lib environ (mkWorld None (backend w))
    = (Returned tt, mkWorld (Some c) (backend w), t) →
  ∃ b' ts,
    (Forall (λ ev, during_serving ev = true) ts
     ∧ Forall (called_with (Some c)) ts)
    ∧ run_server lib aclose_result tag adj get hr hp incoming loop_end environ w =
        (match aclose_result c with
         | Some e' =>
             if is_RuntimeError e'
             then match loop_end with
                  | Some e => if is_Exception e then Returned tt
                              else Raised e
                  | None => Returned tt
                  end
             else Raised e'
         | None =>
             match loop_end with
             | Some e => if is_Exception e then Returned tt else Raised e
             | None => Returned tt
             end
         end,
         mkWorld (match aclose_result c with
                  | None => None
                  | Some _ => Some c
                  end) b',
         t ++ Log INFO "Starting FastMCP server run loop..."
           :: LoopEntered :: ts
           ++ LoopLeft
           :: match loop_end with
              | None =>
                  [Log INFO "FastMCP server run loop finished normally."]
              | Some e =>
                  if is_Exception e
                  then [Log ERROR ("Error during server run: "
                                   +:+ str_of_exn e)]
                  else []
              end
           ++ Log INFO "Shutting down server..."
           :: Log INFO "Closing HTTP client..."
           :: ClientClosing c
           :: match aclose_result c with
              | None => [Log INFO "HTTP client closed."]
              | Some e' =>
                  if is_RuntimeError e'
                  then [Log ERROR
                          ("Error closing HTTP client in finally block: "
                           +:+ str_of_exn e')]
                  else []
              end).
Proof.
  intros Hcfg.
  destruct (mcp_run_leaves tag adj get hr hp incoming loop_end
              (mkWorld (Some c) (backend w))) as (b' & ts & Hrun & F).
  exists b', ts. split; [exact F|].
  unfold run_server, close_http_client, aclose, try_finally, try_except,
    set_http_client, logger_info, logger_error, emit, get_http_client,
    raise, mbind, M_bind.
  cbv beta iota. rewrite Hcfg. cbv beta iota. rewrite Hrun.
  destruct loop_end as [e|]; [destruct (is_Exception e)|]; simpl;
    (destruct (aclose_result c) as [e'|];
       [destruct (is_RuntimeError e')|]);
    flatten_trace; reflexivity.
Qed.

End LifeCycle.

Section Shapes.

Context {B : Type}.
Variable lib : HttpxLibrary.
Implicit Types (w : world B) (environ : gmap string string).

(** Resolution either fails with an [Exception], leaving log records
    only and the world as it was, or succeeds, leaving two records and
    the construction of the client it stores. *)
Lemma configure_cases environ w :
  (∃ e t, is_Exception e = true
          ∧ Forall (λ ev, is_log ev = true) t
          ∧ configure_http_client lib environ w = (Raised e, w, t))
  ∨ (base_url_set environ = true
     ∧ (api_key_set environ = true ∨ basic_auth_set environ = true)
     ∧ ∃ c m1 m2,
         configure_http_client lib environ w =
           (Returned tt, mkWorld (Some c) (backend w),
            [Log INFO m1; Log INFO m2; ClientCreated c])).
Proof.
  destruct (base_url_set environ) eqn:Hu.
  - destruct (api_key_set environ) eqn:Hk.
    + rewrite (configure_api_key_path lib environ w Hu Hk). cbv zeta.
      destruct (invalid_url lib _) as [msg|].
      { left. eexists _, _. split; [|split; [|reflexivity]];
          [reflexivity | repeat constructor]. }
      destruct (PyStr.isascii _).
      * right. split; [done|]. split; [by left|]. by eexists _, _, _.
      * left. eexists _, _. split; [|split; [|reflexivity]];
          [reflexivity | repeat constructor].
    + destruct (basic_auth_set environ) eqn:Hb.
      * rewrite (configure_basic_path lib environ w Hu Hk Hb). cbv zeta.
        destruct (invalid_url lib _) as [msg|].
        { left. eexists _, _. split; [|split; [|reflexivity]];
            [reflexivity | repeat constructor]. }
        right. split; [done|]. split; [by right|]. by eexists _, _, _.
      * left. rewrite (configure_without_credentials lib environ w Hu Hk Hb).
        eexists _, _. split; [|split; [|reflexivity]];
          [reflexivity | repeat constructor].
  - left. rewrite (configure_without_url lib environ w Hu).
    eexists _, _. split; [|split; [|reflexivity]];
      [reflexivity | repeat constructor].
Qed.

(** A trace of log records holds nothing else. *)
Lemma log_only_elem (t : list event) (ev : event) :
  Forall (λ ev, is_log ev = true) t → ev ∈ t → is_log ev = true.
Proof. intros F Hin. rewrite Forall_forall in F. by apply F. Qed.

Lemma log_only_app (t u : list event) :
  Forall (λ ev, is_log ev = true) t →
  Forall (λ ev, is_log ev = true) u →
  Forall (λ ev, is_log ev = true) (t ++ u).
Proof. intros. by apply Forall_app. Qed.

Lemma during_serving_not_closing (ts : list event) :
  Forall (λ ev, during_serving ev = true) ts →
  Forall (λ ev, is_closing ev = false) ts.
Proof. intros F. eapply Forall_impl; [exact F|]. by intros []. Qed.

Lemma during_serving_not_created (ts : list event) (c : AsyncClient) :
  Forall (λ ev, during_serving ev = true) ts → ClientCreated c ∉ ts.
Proof.
  intros F Hin. rewrite Forall_forall in F. by specialize (F _ Hin).
Qed.

End Shapes.

(** C5. When credential resolution fails (no base URL, or no
    credentials) the run consists of log records only: the loop is never
    entered and no request is served.  When a client was created, it is
    closed exactly once, after the loop was left, whether the loop
    returned or raised, and nothing is served afterwards; when the
    closing completes the global is cleared. *)
Theorem C5_startup_and_release {B : Type} (lib : HttpxLibrary)
    (aclose_result : AsyncClient → option exn)
    (tag adj get : tool_impl B)
    (hr hp : string → B → outcome string * B)
    (incoming : list request) (loop_end : option exn)
    (environ : gmap string string) (w : world B) :
  let result :=
    run_server lib aclose_result tag adj get hr hp incoming loop_end environ w in
  ((base_url_set environ = false
    ∨ api_key_set environ = false ∧ basic_auth_set environ = false) →
   (LoopEntered ∉ result.2)
   ∧ (∀ r, Served r ∉ result.2)
   ∧ Forall (λ ev, is_log ev = true) result.2)
  ∧ (∀ c, ClientCreated c ∈ result.2 →
       released_once_after_loop c result.2
       ∧ (aclose_result c = None → http_client result.1.2 = None)).
Proof.
  intros result. subst result.
  destruct (configure_cases lib environ (mkWorld None (backend w)))
    as [(e & t & He & Ft & Hcfg) | (Hu & Hcred & c0 & m1 & m2 & Hcfg)].
  - rewrite (run_server_unconfigured lib aclose_result tag adj get hr hp
               incoming loop_end environ w e _ He Hcfg).
    cbn [fst snd].
    assert (Flog : Forall (λ ev, is_log ev = true)
                     (t ++ [Log ERROR ("Error during server run: "
                                       +:+ str_of_exn e);
                            Log INFO "Shutting down server...";
                            Log INFO
                              "HTTP client was not initialized or already closed."])).
    { apply log_only_app; [done | repeat constructor]. }
    split.
    + intros _. split; [|split; [|exact Flog]].
      * intros Hin. by apply (log_only_elem _ _ Flog) in Hin.
      * intros r Hin. by apply (log_only_elem _ _ Flog) in Hin.
    + intros c Hin. by apply (log_only_elem _ _ Flog) in Hin.
  - destruct (run_server_configured lib aclose_result tag adj get hr hp
                incoming loop_end environ w c0 _ Hcfg)
      as (b' & ts & [F _] & ->).
    simpl. split.
    + intros [Hu' | [Hk Hb]]; [congruence | destruct Hcred; congruence].
    + intros c Hc.
      assert (c = c0) as ->.
      { rewrite !elem_of_cons, elem_of_app, !elem_of_cons in Hc.
        destruct Hc as [|[|[[=]|[|[|[Hc|[|Hc]]]]]]]; try done.
        - by apply during_serving_not_created in Hc.
        - rewrite elem_of_app, !elem_of_cons in Hc.
          destruct Hc as [Hc|[|[|[|Hc]]]]; try done.
          + by destruct loop_end as [e|]; [destruct (is_Exception e)|];
              rewrite ?elem_of_cons, elem_of_nil in Hc; intuition.
          + by destruct (aclose_result c0) as [e|];
              [destruct (is_RuntimeError e)|];
              rewrite ?elem_of_cons, elem_of_nil in Hc; intuition. }
      split; [|by intros ->].
      exists ([Log INFO m1; Log INFO m2; ClientCreated c0;
               Log INFO "Starting FastMCP server run loop..."; LoopEntered]
              ++ ts
              ++ LoopLeft
              :: match loop_end with
                 | None =>
                     [Log INFO "FastMCP server run loop finished normally."]
                 | Some e =>
                     if is_Exception e
                     then [Log ERROR ("Error during server run: "
                                      +:+ str_of_exn e)]
                     else []
                 end
              ++ [Log INFO "Shutting down server...";
                  Log INFO "Closing HTTP client..."]),
             match aclose_result c0 with
             | None => [Log INFO "HTTP client closed."]
             | Some e' =>
                 if is_RuntimeError e'
                 then [Log ERROR
                         ("Error closing HTTP client in finally block: "
                          +:+ str_of_exn e')]
                 else []
             end.
      split; [by flatten_trace|]. split; [|split].
      * rewrite !elem_of_app, !elem_of_cons. right. right. by left.
      * rewrite !Forall_app, !Forall_cons, !Forall_app.
        repeat split; try done;
          try (by apply during_serving_not_closing);
          try (by destruct loop_end as [e|]; [destruct (is_Exception e)|];
                 repeat constructor);
          by destruct (aclose_result c0) as [e|];
            [destruct (is_RuntimeError e)|]; repeat constructor.
      * by destruct (aclose_result c0) as [e|];
          [destruct (is_RuntimeError e)|]; repeat constructor.
Qed.

(** ** The client the backend calls receive *)

Section BackendClient.

Context {B : Type}.
Variable lib : HttpxLibrary.
Variable aclose_result : AsyncClient → option exn.
Variables (tag adj get : tool_impl B).
Variables (hr hp : string → B → outcome string * B).
Variable incoming : list request.
Variable loop_end : option exn.

(** Every backend call made during a run of the server is handed the
    client that resolution constructed. *)
Lemma run_server_backend_client (environ : gmap string string)
    (w : world B) (n : string) (cl : option AsyncClient)
    (k : gmap string value) :
  BackendCalled n cl k
    ∈ (run_server lib aclose_result tag adj get hr hp incoming loop_end
         environ w).2 →
  ∃ c, cl = Some c
       ∧ headers c !! "kbn-xsrf" = Some "true"
       ∧ headers c !! "Content-Type" = Some "application/json"
       ∧ verify c = false.
Proof.
  destruct (configure_cases lib environ (mkWorld None (backend w)))
    as [(e & t & He & Ft & Hcfg) | (Hu & Hcred & c0 & m1 & m2 & Hcfg)].
  - rewrite (run_server_unconfigured lib aclose_result tag adj get hr hp
               incoming loop_end environ w e _ He Hcfg).
    cbn [fst snd]. intros Hin.
    assert (Hlog : is_log (BackendCalled n cl k) = true); [|done].
    eapply log_only_elem; [|exact Hin].
    apply log_only_app; [done | repeat constructor].
  - destruct (run_server_configured lib aclose_result tag adj get hr hp
                incoming loop_end environ w c0 _ Hcfg)
      as (b' & ts & [_ G] & ->).
    simpl. intros Hin. exists c0.
    assert (Hts : BackendCalled n cl k ∈ ts).
    { rewrite !elem_of_cons, elem_of_app, !elem_of_cons in Hin.
      destruct Hin as [|[|[|[|[|[Hin|[|Hin]]]]]]]; try done.
      rewrite elem_of_app, !elem_of_cons in Hin.
      destruct Hin as [Hin|[|[|[|Hin]]]]; try done.
      - by destruct loop_end as [e|]; [destruct (is_Exception e)|];
          rewrite ?elem_of_cons, elem_of_nil in Hin; intuition.
      - by destruct (aclose_result c0) as [e|];
          [destruct (is_RuntimeError e)|];
          rewrite ?elem_of_cons, elem_of_nil in Hin; intuition. }
    rewrite Forall_forall in G. split; [exact (G _ Hts n cl k eq_refl)|].
    destruct (resolved_client_facts lib environ (mkWorld None (backend w)))
      as (c & _ & Hc & _ & Hfacts); [by rewrite Hcfg|].
    rewrite Hcfg in Hc. simpl in Hc. by injection Hc as <-.
Qed.

End BackendClient.

(** C7. Whenever resolution succeeds, whichever authentication method was
    selected, the client's headers hold the anti-forgery header kbn-xsrf
    and the JSON content type; and every backend call made during a run
    of the server is handed a client with both. *)
Theorem C7_fixed_headers_present {B : Type} (lib : HttpxLibrary)
    (environ : gmap string string) (w : world B) :
  ((configure_http_client lib environ w).1.1 = Returned tt →
   resolves_to lib environ w (λ c,
     headers c !! "kbn-xsrf" = Some "true"
     ∧ headers c !! "Content-Type" = Some "application/json"))
  ∧ (∀ aclose_result tag adj get hr hp incoming loop_end n cl k,
       BackendCalled n cl k
         ∈ (run_server lib aclose_result tag adj get hr hp incoming loop_end
              environ w).2 →
       ∃ c, cl = Some c
            ∧ headers c !! "kbn-xsrf" = Some "true"
            ∧ headers c !! "Content-Type" = Some "application/json").
Proof.
  split.
  - intros H. eapply resolves_to_weaken;
      [|exact (resolved_client_facts lib environ w H)].
    intros c (Hx & Hc & _). by split.
  - intros aclose_result tag adj get hr hp incoming loop_end n cl k Hin.
    destruct (run_server_backend_client lib aclose_result tag adj get hr hp
                incoming loop_end environ w n cl k Hin) as (c & ? & ? & ? & ?).
    by exists c.
Qed.

Lemma C7_witness_basic_auth :
  resolves_to sample_lib sample_env_basic sample_world (λ c,
    headers c !! "kbn-xsrf" = Some "true"
    ∧ headers c !! "Content-Type" = Some "application/json").
Proof.
  destruct (C7_fixed_headers_present sample_lib sample_env_basic sample_world)
    as [H _].
  exact (H eq_refl).
Defined.

(** C10. Whenever resolution succeeds, whichever authentication method
    was selected, the client is constructed with certificate verification
    turned off; and every backend call made during a run of the server is
    handed such a client. *)
Theorem C10_verification_disabled {B : Type} (lib : HttpxLibrary)
    (environ : gmap string string) (w : world B) :
  ((configure_http_client lib environ w).1.1 = Returned tt →
   resolves_to lib environ w (λ c, verify c = false))
  ∧ (∀ aclose_result tag adj get hr hp incoming loop_end n cl k,
       BackendCalled n cl k
         ∈ (run_server lib aclose_result tag adj get hr hp incoming loop_end
              environ w).2 →
       ∃ c, cl = Some c ∧ verify c = false).
Proof.
  split.
  - intros H. eapply resolves_to_weaken;
      [|exact (resolved_client_facts lib environ w H)].
    by intros c (_ & _ & Hv).
  - intros aclose_result tag adj get hr hp incoming loop_end n cl k Hin.
    destruct (run_server_backend_client lib aclose_result tag adj get hr hp
                incoming loop_end environ w n cl k Hin) as (c & ? & ? & ? & ?).
    by exists c.
Qed.

Lemma C10_witness_api_key :
  resolves_to sample_lib sample_env_api_key sample_world (λ c, verify c = false).
Proof.
  destruct (C10_verification_disabled sample_lib sample_env_api_key sample_world)
    as [H _].
  exact (H eq_refl).
Defined.

Lemma C5_witness_no_url_and_interrupt :
  Forall (λ ev, is_log ev = true)
    (run_server sample_lib (λ _, None) failing_backend accepting_backend
       failing_backend no_resource no_resource
       [CallTagAlert "a1" ["x"]; ReadAlertResource "7"] None
       ∅ sample_world).2
  ∧ released_once_after_loop sample_client
      (run_server sample_lib (λ _, Some (RuntimeError "Event loop is closed"))
         failing_backend accepting_backend failing_backend
         no_resource no_resource
         [CallTagAlert "a1" ["x"]; ReadAlertResource "7"]
         (Some (NonException "KeyboardInterrupt"))
         sample_env_api_key sample_world).2.
Proof.
  split.
  - destruct (C5_startup_and_release sample_lib (λ _, None) failing_backend
                accepting_backend failing_backend no_resource no_resource
                [CallTagAlert "a1" ["x"]; ReadAlertResource "7"] None
                ∅ sample_world) as [H _].
    apply H. left. reflexivity.
  - destruct (C5_startup_and_release sample_lib
                (λ _, Some (RuntimeError "Event loop is closed"))
                failing_backend accepting_backend failing_backend
                no_resource no_resource
                [CallTagAlert "a1" ["x"]; ReadAlertResource "7"]
                (Some (NonException "KeyboardInterrupt"))
                sample_env_api_key sample_world) as [_ H].
    apply (H sample_client).
    apply list_elem_of_lookup. exists 2%nat. reflexivity.
Defined.

(** * Further properties of the module *)

(** ** More on trimming *)

Section TrimFacts.

Lemma strip_all_space (s : string) : all_space s = true → PyStr.strip s = "".
Proof.
  unfold all_space, PyStr.strip. by destruct (PyStr.lstrip s).
Qed.

Lemma prefix_shorter (a b s : string) :
  String.prefix (a +:+ b) s = true → String.prefix a s = true.
Proof.
  revert s. induction a as [|x a IH]; intros s; [by destruct s|].
  change (String x a +:+ b) with (String x (a +:+ b)).
  destruct s as [|y s]; simpl; [done|].
  destruct (Ascii.ascii_dec x y); [apply IH | done].
Qed.

End TrimFacts.

(** ** More on the credential resolver *)

Section ResolverExtras.

Context {B : Type}.
Variable lib : HttpxLibrary.
Implicit Types (environ : gmap string string) (w : world B).

Lemma fixed_headers_keys (h : string) :
  is_Some (fixed_headers !! h) → h = "kbn-xsrf" ∨ h = "Content-Type".
Proof.
  intros Hh.
  destruct (decide (h = "kbn-xsrf")) as [|H1]; [by left|].
  destruct (decide (h = "Content-Type")) as [|H2]; [by right|].
  unfold fixed_headers in Hh.
  rewrite lookup_insert_ne, lookup_singleton_ne in Hh by done.
  by destruct Hh.
Qed.

Lemma expected_authorization_blank (key : string) :
  all_space key = true → expected_authorization key = "ApiKey ".
Proof.
  intros H. unfold expected_authorization. by rewrite strip_all_space.
Qed.

Lemma expected_authorization_stable (key : string) :
  PyStr.strip key ≠ "" →
  expected_authorization (expected_authorization key)
  = expected_authorization key.
Proof.
  intros Hne. unfold expected_authorization at 2 3.
  destruct (PyStr.startswith (PyStr.strip key) "ApiKey ") eqn:E.
  - unfold expected_authorization. by rewrite E.
  - unfold expected_authorization.
    change ("ApiKey" +:+ " " +:+ PyStr.strip key)
      with ("ApiKey " +:+ PyStr.strip key).
    rewrite (strip_prefixed (PyStr.strip key) Hne (strip_idempotent key)).
    unfold PyStr.startswith. by rewrite prefix_append.
Qed.

Lemma expected_authorization_scheme (key : string) :
  PyStr.startswith (PyStr.strip (expected_authorization key)) "ApiKey"
  = true.
Proof.
  unfold expected_authorization.
  destruct (PyStr.startswith (PyStr.strip key) "ApiKey ") eqn:E.
  - exact (prefix_shorter "ApiKey" " " _ E).
  - change ("ApiKey" +:+ " " +:+ PyStr.strip key)
      with ("ApiKey " +:+ PyStr.strip key).
    destruct (decide (PyStr.strip key = "")) as [-> | Hne]; [done|].
    rewrite (strip_prefixed (PyStr.strip key) Hne (strip_idempotent key)).
    exact (prefix_shorter "ApiKey" " " _ (prefix_append "ApiKey " _)).
Qed.

Lemma expected_authorization_nonempty (key : string) :
  key ≠ "" → expected_authorization key ≠ "".
Proof.
  intros Hne. unfold expected_authorization.
  by destruct (PyStr.startswith (PyStr.strip key) "ApiKey ").
Qed.

Lemma api_key_set_insert environ (key : string) :
  key ≠ "" → api_key_set (<["KIBANA_API_KEY" := key]> environ) = true.
Proof.
  intros Hne. unfold api_key_set. rewrite lookup_insert_eq. by destruct key.
Qed.

Lemma base_url_set_insert environ (k v : string) :
  k ≠ "KIBANA_URL" →
  base_url_set (<[k := v]> environ) = base_url_set environ.
Proof. intros Hk. unfold base_url_set. by rewrite lookup_insert_ne. Qed.

End ResolverExtras.

(** X1. Whenever resolution succeeds, the base URL the module hands to
    the client constructor is KIBANA_URL exactly as supplied (the module
    does not trim or otherwise change it, unlike the API key), it is
    never empty, and the timeout it hands over is 30 seconds on either
    authentication path.  What the constructor then does to the URL is
    not the module's. *)
Theorem X1_client_endpoint {B : Type} (lib : HttpxLibrary)
    (environ : gmap string string) (w : world B) :
  (configure_http_client lib environ w).1.1 = Returned tt →
  resolves_to lib environ w (λ c,
    environ !! "KIBANA_URL" = Some (base_url c)
    ∧ base_url c ≠ ""
    ∧ timeout c = 30%Z).
Proof.
  intros H.
  destruct (returned_cases lib environ w H)
    as (Hu & Hacc & [[Hk Ha] | [Hk Hb]]);
    destruct (truthy_Some _ Hu) as (url & Hurl & Hne).
  - eapply resolves_to_weaken;
      [|exact (resolves_with_api_key lib environ w Hu Hk Hacc Ha)].
    intros c ->. simpl. by rewrite Hurl.
  - eapply resolves_to_weaken;
      [|exact (resolves_with_basic_auth lib environ w Hu Hk Hb Hacc)].
    intros c ->. simpl. by rewrite Hurl.
Qed.

Lemma X1_witness :
  resolves_to sample_lib sample_env_basic sample_world (λ c,
    sample_env_basic !! "KIBANA_URL" = Some (base_url c)
    ∧ base_url c ≠ ""
    ∧ timeout c = 30%Z).
Proof.
  exact (X1_client_endpoint sample_lib sample_env_basic sample_world
           eq_refl).
Defined.

(** X2. Whenever resolution succeeds, the header set the module hands to
    the client constructor has no key besides kbn-xsrf, Content-Type and
    Authorization, and on the basic-auth path it is exactly the two fixed
    headers: the module itself puts the username and the password into
    the [auth] argument only.  The headers the constructor adds or
    derives are not the module's. *)
Theorem X2_header_set_is_bounded {B : Type} (lib : HttpxLibrary)
    (environ : gmap string string) (w : world B) :
  (configure_http_client lib environ w).1.1 = Returned tt →
  resolves_to lib environ w (λ c,
    (∀ h, is_Some (headers c !! h) →
          h ∈ ["kbn-xsrf"; "Content-Type"; "Authorization"])
    ∧ (is_Some (auth c) → headers c = fixed_headers)).
Proof.
  intros H.
  destruct (returned_cases lib environ w H)
    as (Hu & Hacc & [[Hk Ha] | [Hk Hb]]).
  - eapply resolves_to_weaken;
      [|exact (resolves_with_api_key lib environ w Hu Hk Hacc Ha)].
    intros c ->. simpl. split; [|by intros [? [=]]].
    intros h Hh. rewrite lookup_insert_is_Some in Hh.
    rewrite !elem_of_cons.
    destruct Hh as [<- | [_ Hh]]; [auto|].
    destruct (fixed_headers_keys h Hh); auto.
  - eapply resolves_to_weaken;
      [|exact (resolves_with_basic_auth lib environ w Hu Hk Hb Hacc)].
    intros c ->. simpl. split; [|done].
    intros h Hh. rewrite !elem_of_cons.
    destruct (fixed_headers_keys h Hh); auto.
Qed.

Lemma X2_witness :
  resolves_to sample_lib sample_env_basic sample_world (λ c,
    (∀ h, is_Some (headers c !! h) →
          h ∈ ["kbn-xsrf"; "Content-Type"; "Authorization"])
    ∧ (is_Some (auth c) → headers c = fixed_headers)).
Proof.
  exact (X2_header_set_is_bounded sample_lib sample_env_basic sample_world
           eq_refl).
Defined.

(** X3. An API key made of whitespace only (of any of the characters
    [str.strip] removes) counts as present: when [httpx] accepts the base
    URL, resolution succeeds with header auth and the Authorization value
    is the bare scheme "ApiKey " with no credential after it. *)
Theorem X3_blank_api_key_is_accepted {B : Type} (lib : HttpxLibrary)
    (environ : gmap string string) (w : world B) (key : string) :
  base_url_set environ = true →
  invalid_url lib (default "" (environ !! "KIBANA_URL")) = None →
  environ !! "KIBANA_API_KEY" = Some key →
  key ≠ "" →
  all_space key = true →
  resolves_to lib environ w (λ c,
    headers c !! "Authorization" = Some "ApiKey " ∧ auth c = None).
Proof.
  intros Hu Hacc Hkey Hne Hsp.
  assert (Hk : api_key_set environ = true).
  { unfold api_key_set. rewrite Hkey. by destruct key. }
  assert (Hv : expected_authorization
                 (default "" (environ !! "KIBANA_API_KEY")) = "ApiKey ").
  { rewrite Hkey. exact (expected_authorization_blank key Hsp). }
  eapply resolves_to_weaken;
    [|refine (resolves_with_api_key lib environ w Hu Hk Hacc _);
      by rewrite Hv].
  intros c ->. cbn [headers auth].
  by rewrite lookup_insert_eq, Hv.
Qed.

Lemma X3_witness :
  resolves_to sample_lib (<["KIBANA_API_KEY" := "   "]> sample_env_basic)
    sample_world
    (λ c, headers c !! "Authorization" = Some "ApiKey " ∧ auth c = None).
Proof.
  apply (X3_blank_api_key_is_accepted sample_lib
           (<["KIBANA_API_KEY" := "   "]> sample_env_basic) sample_world
           "   ");
    [reflexivity | reflexivity | reflexivity | discriminate | reflexivity].
Defined.

(** X4. Normalising an API key is stable: when resolution succeeds for a
    key that is not blank, configuring with the Authorization value it
    produced as the new API key succeeds too and yields the same
    Authorization value. *)
Theorem X4_normalisation_is_stable {B : Type} (lib : HttpxLibrary)
    (environ : gmap string string) (w : world B) (key : string) :
  PyStr.strip key ≠ "" →
  (configure_http_client lib (<["KIBANA_API_KEY" := key]> environ) w).1.1
  = Returned tt →
  ∃ header,
    resolves_to lib (<["KIBANA_API_KEY" := key]> environ) w
      (λ c, headers c !! "Authorization" = Some header)
    ∧ resolves_to lib (<["KIBANA_API_KEY" := header]> environ) w
        (λ c, headers c !! "Authorization" = Some header).
Proof.
  intros Hstrip Hret.
  assert (Hne : key ≠ "") by (by intros ->).
  destruct (returned_cases lib _ w Hret) as (Hu & Hacc & [[Hk Ha] | [Hk _]]);
    [|by rewrite (api_key_set_insert environ key Hne) in Hk].
  rewrite base_url_set_insert in Hu by done.
  rewrite lookup_insert_ne in Hacc by done.
  rewrite lookup_insert_eq in Ha.
  change (default "" (Some key)) with key in Ha.
  exists (expected_authorization key). split.
  - eapply resolves_to_weaken;
      [|refine (resolves_with_api_key lib _ w _
                  (api_key_set_insert environ key Hne) _ _)].
    + intros c ->. cbn [headers]. by rewrite !lookup_insert_eq.
    + by rewrite base_url_set_insert.
    + by rewrite lookup_insert_ne.
    + by rewrite lookup_insert_eq.
  - eapply resolves_to_weaken;
      [|refine (resolves_with_api_key lib _ w _
                  (api_key_set_insert environ _
                     (expected_authorization_nonempty key Hne)) _ _)].
    + intros c ->. cbn [headers]. rewrite !lookup_insert_eq.
      change (default "" (Some (expected_authorization key)))
        with (expected_authorization key).
      by rewrite (expected_authorization_stable key Hstrip).
    + by rewrite base_url_set_insert.
    + by rewrite lookup_insert_ne.
    + rewrite lookup_insert_eq.
      change (default "" (Some (expected_authorization key)))
        with (expected_authorization key).
      by rewrite (expected_authorization_stable key Hstrip).
Qed.

Lemma X4_witness :
  ∃ header,
    resolves_to sample_lib
      (<["KIBANA_API_KEY" := " c2VjcmV0 "]> sample_env_basic)
      sample_world (λ c, headers c !! "Authorization" = Some header)
    ∧ resolves_to sample_lib
        (<["KIBANA_API_KEY" := header]> sample_env_basic)
        sample_world (λ c, headers c !! "Authorization" = Some header).
Proof.
  apply (X4_normalisation_is_stable sample_lib sample_env_basic sample_world
           " c2VjcmV0 "); [discriminate | reflexivity].
Defined.

(** X5. Whenever resolution succeeds on the API-key path, the
    Authorization value of the client, once trimmed, starts with the
    scheme token "ApiKey". *)
Theorem X5_authorization_carries_scheme {B : Type} (lib : HttpxLibrary)
    (environ : gmap string string) (w : world B) :
  (configure_http_client lib environ w).1.1 = Returned tt →
  api_key_set environ = true →
  resolves_to lib environ w (λ c,
    ∃ v, headers c !! "Authorization" = Some v
         ∧ PyStr.startswith (PyStr.strip v) "ApiKey" = true).
Proof.
  intros H Hk.
  destruct (returned_cases lib environ w H)
    as (Hu & Hacc & [[_ Ha] | [Hk' _]]); [|congruence].
  eapply resolves_to_weaken;
    [|exact (resolves_with_api_key lib environ w Hu Hk Hacc Ha)].
  intros c ->. cbn [headers]. eexists. split; [apply lookup_insert_eq|].
  apply expected_authorization_scheme.
Qed.

Lemma X5_witness :
  resolves_to sample_lib sample_env_api_key sample_world (λ c,
    ∃ v, headers c !! "Authorization" = Some v
         ∧ PyStr.startswith (PyStr.strip v) "ApiKey" = true).
Proof.
  exact (X5_authorization_carries_scheme sample_lib sample_env_api_key
           sample_world eq_refl eq_refl).
Defined.

Section ResolverLogs.

Context {B : Type}.
Variable lib : HttpxLibrary.
Implicit Types (environ : gmap string string) (w : world B).

(** The log records of a resolution, whatever the constructor does. *)
Lemma resolver_logs environ w :
  filter (λ ev, is_log ev = true) (configure_http_client lib environ w).2 =
    let url := default "" (environ !! "KIBANA_URL") in
    let user := default "" (environ !! "KIBANA_USERNAME") in
    if base_url_set environ
    then
      if api_key_set environ
      then [Log INFO "Configuring authentication using API Key.";
            Log INFO ("Creating HTTP client for Kibana at " +:+ url
                      +:+ " using API Key.")]
      else if basic_auth_set environ
      then [Log INFO
              ("Configuring authentication using Basic auth for user: "
               +:+ user);
            Log INFO ("Creating HTTP client for Kibana at " +:+ url
                      +:+ " using Username/Password.")]
      else [Log ERROR "Kibana authentication not configured."]
    else [Log ERROR "KIBANA_URL environment variable not set."].
Proof.
  cbv zeta. destruct (base_url_set environ) eqn:Hu.
  - destruct (api_key_set environ) eqn:Hk.
    + rewrite (configure_api_key_path lib environ w Hu Hk). cbv zeta.
      destruct (invalid_url lib _); [reflexivity|].
      destruct (PyStr.isascii _); reflexivity.
    + destruct (basic_auth_set environ) eqn:Hb.
      * rewrite (configure_basic_path lib environ w Hu Hk Hb). cbv zeta.
        destruct (invalid_url lib _); reflexivity.
      * by rewrite (configure_without_credentials lib environ w Hu Hk Hb).
  - by rewrite (configure_without_url lib environ w Hu).
Qed.

End ResolverLogs.

(** X6. The log records of the resolver do not depend on the secrets:
    replacing a present API key, or a present password, by any other
    non-empty value leaves every log record unchanged (the records name
    the base URL, the method and the username only). *)
Theorem X6_logs_do_not_depend_on_secrets {B : Type} (lib : HttpxLibrary)
    (environ : gmap string string) (w : world B) (secret : string) :
  secret ≠ "" →
  (PyStr.truthy (environ !! "KIBANA_API_KEY") = true →
   filter (λ ev, is_log ev = true)
     (configure_http_client lib (<["KIBANA_API_KEY" := secret]> environ) w).2
   = filter (λ ev, is_log ev = true) (configure_http_client lib environ w).2)
  ∧ (PyStr.truthy (environ !! "KIBANA_PASSWORD") = true →
     filter (λ ev, is_log ev = true)
       (configure_http_client lib (<["KIBANA_PASSWORD" := secret]> environ) w).2
     = filter (λ ev, is_log ev = true) (configure_http_client lib environ w).2).
Proof.
  intros Hne. destruct secret as [|a secret]; [done|]. clear Hne.
  split; intros Hset; rewrite !resolver_logs; cbv zeta;
    unfold base_url_set, api_key_set, basic_auth_set;
    rewrite ?lookup_insert_eq, ?lookup_insert_ne by done.
  - by rewrite Hset.
  - by rewrite Hset.
Qed.

Lemma X6_witness :
  filter (λ ev, is_log ev = true)
    (configure_http_client sample_lib
       (<["KIBANA_PASSWORD" := "hunter2"]> sample_env_basic) sample_world).2
  = filter (λ ev, is_log ev = true)
      (configure_http_client sample_lib sample_env_basic sample_world).2.
Proof.
  destruct (X6_logs_do_not_depend_on_secrets sample_lib sample_env_basic sample_world
              "hunter2") as [_ H]; [discriminate|].
  apply H. reflexivity.
Defined.

(** X7. The resolver never closes anything and never touches the
    backend: when the global already holds a client, a successful
    resolution replaces it by the new client without closing the old one,
    and a failed resolution leaves the old one in place. *)
Theorem X7_resolver_replaces_without_closing {B : Type} (lib : HttpxLibrary)
    (environ : gmap string string) (w : world B) :
  let result := configure_http_client lib environ w in
  backend result.1.2 = backend w
  ∧ Forall (λ ev, is_closing ev = false) result.2
  ∧ (result.1.1 = Returned tt →
     ∃ c, http_client result.1.2 = Some c ∧ ClientCreated c ∈ result.2)
  ∧ (result.1.1 ≠ Returned tt → http_client result.1.2 = http_client w).
Proof.
  intros result. subst result.
  destruct (configure_cases lib environ w)
    as [(e & t & _ & Ft & ->) | (_ & _ & c & m1 & m2 & ->)]; simpl.
  - repeat split; [|done].
    eapply Forall_impl; [exact Ft|]. by intros [].
  - repeat split; [repeat constructor | | done].
    intros _. exists c. split; [done|].
    rewrite !elem_of_cons. auto.
Qed.

Lemma X7_witness :
  ∃ c, http_client
         (configure_http_client sample_lib sample_env_basic
            (mkWorld (Some sample_client) tt)).1.2 = Some c
       ∧ ClientCreated c
           ∈ (configure_http_client sample_lib sample_env_basic
                (mkWorld (Some sample_client) tt)).2.
Proof.
  destruct (X7_resolver_replaces_without_closing sample_lib sample_env_basic
              (mkWorld (Some sample_client) tt)) as (_ & _ & H & _).
  apply H. reflexivity.
Defined.

(** ** Closing the client *)

(** X8. Closing is idempotent: when [aclose] completes, the first call
    logs, closes the client and clears the global; a second call then
    does nothing at all (no record, no second [aclose]). *)
Theorem X8_close_is_idempotent {B : Type}
    (aclose_result : AsyncClient → option exn) (w : world B)
    (c : AsyncClient) :
  http_client w = Some c →
  aclose_result c = None →
  close_http_client aclose_result w =
    (Returned tt, mkWorld None (backend w),
     [Log INFO "Closing HTTP client..."; ClientClosing c;
      Log INFO "HTTP client closed."])
  ∧ close_http_client aclose_result
      (close_http_client aclose_result w).1.2 =
      (Returned tt, mkWorld None (backend w), []).
Proof.
  intros Hc Ha.
  assert (H1 : close_http_client aclose_result w =
                 (Returned tt, mkWorld None (backend w),
                  [Log INFO "Closing HTTP client..."; ClientClosing c;
                   Log INFO "HTTP client closed."])).
  { unfold close_http_client, aclose, logger_info, emit, set_http_client,
      get_http_client, mbind, M_bind. cbv beta iota. rewrite Hc.
    cbv beta iota. rewrite Ha. reflexivity. }
  split; [exact H1|]. rewrite H1. reflexivity.
Qed.

Lemma X8_witness :
  close_http_client (λ _, None)
    (close_http_client (λ _, None) (mkWorld (Some sample_client) tt)).1.2
  = (Returned tt, mkWorld None tt, []).
Proof.
  apply (X8_close_is_idempotent (λ _, None)
           (mkWorld (Some sample_client) tt) sample_client);
    reflexivity.
Defined.

(** X9. When [aclose] raises, [close_http_client] lets the exception
    through unchanged, whatever its class, does not log the completion
    and leaves the client in the global, so that a later call tries to
    close it again. *)
Theorem X9_failed_close_keeps_client {B : Type}
    (aclose_result : AsyncClient → option exn) (w : world B)
    (c : AsyncClient) (e : exn) :
  http_client w = Some c →
  aclose_result c = Some e →
  close_http_client aclose_result w =
    (Raised e, w, [Log INFO "Closing HTTP client..."; ClientClosing c])
  ∧ ClientClosing c
      ∈ (close_http_client aclose_result
           (close_http_client aclose_result w).1.2).2.
Proof.
  intros Hc Ha.
  assert (H1 : close_http_client aclose_result w =
                 (Raised e, w,
                  [Log INFO "Closing HTTP client..."; ClientClosing c])).
  { unfold close_http_client, aclose, logger_info, emit, set_http_client,
      get_http_client, raise, mbind, M_bind. cbv beta iota. rewrite Hc.
    cbv beta iota. rewrite Ha. reflexivity. }
  split; [exact H1|]. rewrite H1. simpl. rewrite H1. simpl.
  rewrite !elem_of_cons. auto.
Qed.

Lemma X9_witness :
  close_http_client (λ _, Some (OtherException "connection reset"))
    (mkWorld (Some sample_client) tt)
  = (Raised (OtherException "connection reset"),
     mkWorld (Some sample_client) tt,
     [Log INFO "Closing HTTP client..."; ClientClosing sample_client]).
Proof.
  apply (X9_failed_close_keeps_client
           (λ _, Some (OtherException "connection reset"))
           (mkWorld (Some sample_client) tt) sample_client
           (OtherException "connection reset")); reflexivity.
Defined.

(** ** More on the server life cycle *)

Section RunShape.

Context {B : Type}.
Variable lib : HttpxLibrary.
Variable aclose_result : AsyncClient → option exn.
Variables (tag adj get : tool_impl B).
Variables (hr hp : string → B → outcome string * B).
Variable incoming : list request.
Variable loop_end : option exn.

(** The two shapes of a run: log records only, or the construction of a
    client, the loop, and the closing of that client, with log records
    in between. *)
Lemma run_trace_shape (environ : gmap string string) (w : world B) :
  Forall (λ ev, is_log ev = true)
    (run_server lib aclose_result tag adj get hr hp incoming loop_end
       environ w).2
  ∨ ∃ c pre ts mid tail,
      (run_server lib aclose_result tag adj get hr hp incoming loop_end
         environ w).2
      = pre ++ ClientCreated c
          :: Log INFO "Starting FastMCP server run loop..."
          :: LoopEntered :: ts
          ++ LoopLeft :: mid ++ ClientClosing c :: tail
      ∧ Forall (λ ev, is_log ev = true) pre
      ∧ Forall (λ ev, during_serving ev = true) ts
      ∧ Forall (λ ev, is_log ev = true) mid
      ∧ Forall (λ ev, is_log ev = true) tail
      ∧ Forall (called_with (Some c)) ts.
Proof.
  destruct (configure_cases lib environ (mkWorld None (backend w)))
    as [(e & t & He & Ft & Hcfg) | (Hu & Hcred & c0 & m1 & m2 & Hcfg)].
  - left.
    rewrite (run_server_unconfigured lib aclose_result tag adj get hr hp
               incoming loop_end environ w e _ He Hcfg).
    apply log_only_app; [done | repeat constructor].
  - right.
    destruct (run_server_configured lib aclose_result tag adj get hr hp
                incoming loop_end environ w c0 _ Hcfg)
      as (b' & ts & [F G] & ->).
    exists c0, [Log INFO m1; Log INFO m2], ts,
      (match loop_end with
       | None => [Log INFO "FastMCP server run loop finished normally."]
       | Some e =>
           if is_Exception e
           then [Log ERROR ("Error during server run: " +:+ str_of_exn e)]
           else []
       end
       ++ [Log INFO "Shutting down server...";
           Log INFO "Closing HTTP client..."]),
      (match aclose_result c0 with
       | None => [Log INFO "HTTP client closed."]
       | Some e' =>
           if is_RuntimeError e'
           then [Log ERROR
                   ("Error closing HTTP client in finally block: "
                    +:+ str_of_exn e')]
           else []
       end).
    split; [by flatten_trace|].
    split; [repeat constructor|]. split; [exact F|]. split.
    + apply Forall_app. split; [|repeat constructor].
      by destruct loop_end as [e|]; [destruct (is_Exception e)|];
        repeat constructor.
    + split; [|exact G].
      by destruct (aclose_result c0) as [e|];
        [destruct (is_RuntimeError e)|]; repeat constructor.
Qed.

Lemma log_not_created (t : list event) (c : AsyncClient) :
  Forall (λ ev, is_log ev = true) t → ClientCreated c ∉ t.
Proof. intros F Hin. rewrite Forall_forall in F. by specialize (F _ Hin). Qed.

Lemma log_not_closing (t : list event) (c : AsyncClient) :
  Forall (λ ev, is_log ev = true) t → ClientClosing c ∉ t.
Proof. intros F Hin. rewrite Forall_forall in F. by specialize (F _ Hin). Qed.

Lemma serving_not_closing (t : list event) (c : AsyncClient) :
  Forall (λ ev, during_serving ev = true) t → ClientClosing c ∉ t.
Proof. intros F Hin. rewrite Forall_forall in F. by specialize (F _ Hin). Qed.

Lemma log_no_creation (t : list event) :
  Forall (λ ev, is_log ev = true) t →
  Forall (λ ev, is_created ev = false) t.
Proof. intros F. eapply Forall_impl; [exact F|]. by intros []. Qed.

Lemma serving_no_creation (t : list event) :
  Forall (λ ev, during_serving ev = true) t →
  Forall (λ ev, is_created ev = false) t.
Proof. intros F. eapply Forall_impl; [exact F|]. by intros []. Qed.

End RunShape.

(** X10. A run starts from an empty global whatever the global held
    before, so a client configured earlier is discarded without being
    closed: the run behaves exactly as from an empty global, and the only
    client a run ever closes is the one it created itself. *)
Theorem X10_run_closes_only_its_own_client {B : Type} (lib : HttpxLibrary)
    (aclose_result : AsyncClient → option exn)
    (tag adj get : tool_impl B)
    (hr hp : string → B → outcome string * B)
    (incoming : list request) (loop_end : option exn)
    (environ : gmap string string) (w : world B) :
  run_server lib aclose_result tag adj get hr hp incoming loop_end environ w
  = run_server lib aclose_result tag adj get hr hp incoming loop_end environ
      (mkWorld None (backend w))
  ∧ ∀ c, ClientClosing c
           ∈ (run_server lib aclose_result tag adj get hr hp incoming loop_end
                environ w).2 →
         ClientCreated c
           ∈ (run_server lib aclose_result tag adj get hr hp incoming loop_end
                environ w).2.
Proof.
  split; [reflexivity|]. intros c.
  destruct (run_trace_shape lib aclose_result tag adj get hr hp incoming
              loop_end environ w)
    as [F | (c0 & pre & ts & mid & tail & -> & Fp & Fs & Fm & Ft & _)].
  - intros Hin. by apply log_not_closing in Hin.
  - intros Hin.
    repeat (rewrite elem_of_app in Hin || rewrite elem_of_cons in Hin).
    destruct Hin as [Hin|[|[|[|[Hin|[|[Hin|[[= ->]|Hin]]]]]]]]; try done;
      try (by apply log_not_closing in Hin);
      try (by apply serving_not_closing in Hin).
    rewrite elem_of_app, elem_of_cons. auto.
Qed.

Lemma X10_witness :
  ClientCreated sample_client
    ∈ (run_server sample_lib (λ _, None) failing_backend accepting_backend
         failing_backend no_resource no_resource [] None
         sample_env_api_key
         (mkWorld (Some (mkAsyncClient "http://old" ∅ 5 true None)) tt)).2.
Proof.
  destruct (X10_run_closes_only_its_own_client sample_lib (λ _, None) failing_backend
              accepting_backend failing_backend no_resource no_resource
              [] None sample_env_api_key
              (mkWorld (Some (mkAsyncClient "http://old" ∅ 5 true None)) tt))
    as [_ H].
  apply H. apply list_elem_of_lookup. exists 9%nat. reflexivity.
Defined.



(** X12. A configuration error does not leave [run_server]: the call
    returns normally, the error is written to the log with its message,
    the global stays empty and the backend is untouched, whatever
    requests were waiting. *)
Theorem X12_configuration_error_is_swallowed {B : Type} (lib : HttpxLibrary)
    (aclose_result : AsyncClient → option exn)
    (tag adj get : tool_impl B)
    (hr hp : string → B → outcome string * B)
    (incoming : list request) (loop_end : option exn)
    (environ : gmap string string) (w : world B) :
  (base_url_set environ = false
   ∨ api_key_set environ = false ∧ basic_auth_set environ = false) →
  ∃ e, (e = missing_base_url ∨ e = no_credentials)
       ∧ (run_server lib aclose_result tag adj get hr hp incoming loop_end
            environ w).1
         = (Returned tt, mkWorld None (backend w))
       ∧ Log ERROR ("Error during server run: " +:+ str_of_exn e)
           ∈ (run_server lib aclose_result tag adj get hr hp incoming loop_end
                environ w).2.
Proof.
  intros Hfail.
  assert (H : ∃ e m, (e = missing_base_url ∨ e = no_credentials)
                     ∧ configure_http_client lib environ
                         (mkWorld None (backend w))
                       = (Raised e, mkWorld None (backend w),
                          [Log ERROR m])).
  { destruct (base_url_set environ) eqn:Hu.
    - destruct Hfail as [|[Hk Hb]]; [done|].
      eexists _, _. split; [by right|].
      exact (configure_without_credentials lib environ _ Hu Hk Hb).
    - eexists _, _. split; [by left|].
      exact (configure_without_url lib environ _ Hu). }
  destruct H as (e & m & He & Hcfg). exists e. split; [exact He|].
  rewrite (run_server_unconfigured lib aclose_result tag adj get hr hp
             incoming loop_end environ w e _
             ltac:(by destruct He as [-> | ->]) Hcfg).
  split; [reflexivity|]. simpl. rewrite !elem_of_cons. auto.
Qed.

Lemma X12_witness :
  ∃ e, (e = missing_base_url ∨ e = no_credentials)
       ∧ (run_server sample_lib (λ _, None) failing_backend accepting_backend
            failing_backend no_resource no_resource
            [CallGetAlerts None None] None
            (delete "KIBANA_API_KEY" sample_env_api_key) sample_world).1
         = (Returned tt, mkWorld None tt)
       ∧ Log ERROR ("Error during server run: " +:+ str_of_exn e)
           ∈ (run_server sample_lib (λ _, None) failing_backend accepting_backend
                failing_backend no_resource no_resource
                [CallGetAlerts None None] None
                (delete "KIBANA_API_KEY" sample_env_api_key)
                sample_world).2.
Proof.
  apply (X12_configuration_error_is_swallowed sample_lib (λ _, None) failing_backend
           accepting_backend failing_backend no_resource no_resource
           [CallGetAlerts None None] None
           (delete "KIBANA_API_KEY" sample_env_api_key) sample_world).
  right. split; reflexivity.
Defined.

(** X13. In a run the client is constructed at most once, and before the
    loop is entered: what precedes the construction is log records only,
    and after it no further client is constructed and the loop is
    entered. *)
Theorem X13_client_created_once_before_the_loop {B : Type} (lib : HttpxLibrary)
    (aclose_result : AsyncClient → option exn)
    (tag adj get : tool_impl B)
    (hr hp : string → B → outcome string * B)
    (incoming : list request) (loop_end : option exn)
    (environ : gmap string string) (w : world B) (c : AsyncClient) :
  ClientCreated c
    ∈ (run_server lib aclose_result tag adj get hr hp incoming loop_end
         environ w).2 →
  ∃ pre post,
    (run_server lib aclose_result tag adj get hr hp incoming loop_end
       environ w).2 = pre ++ ClientCreated c :: post
    ∧ Forall (λ ev, is_log ev = true) pre
    ∧ Forall (λ ev, is_created ev = false) post
    ∧ LoopEntered ∈ post.
Proof.
  destruct (run_trace_shape lib aclose_result tag adj get hr hp incoming
              loop_end environ w)
    as [F | (c0 & pre & ts & mid & tail & -> & Fp & Fs & Fm & Ft & _)].
  - intros Hin. by apply log_not_created in Hin.
  - intros Hin.
    assert (c = c0) as ->.
    { repeat (rewrite elem_of_app in Hin || rewrite elem_of_cons in Hin).
      destruct Hin as [Hin|[[= ->]|[|[|[Hin|[|[Hin|[|Hin]]]]]]]]; try done;
        try (by apply log_not_created in Hin).
      by apply during_serving_not_created in Hin. }
    eexists pre, _. split; [reflexivity|]. split; [exact Fp|]. split.
    + repeat (apply Forall_cons_2 || apply Forall_app_2); try done.
      * by apply serving_no_creation.
      * by apply log_no_creation.
      * by apply log_no_creation.
    + rewrite !elem_of_cons. auto.
Qed.

Lemma X13_witness :
  ∃ pre post,
    (run_server sample_lib (λ _, None) failing_backend accepting_backend
       failing_backend no_resource no_resource [CallGetAlerts None None]
       None sample_env_api_key sample_world).2
    = pre ++ ClientCreated sample_client :: post
    ∧ Forall (λ ev, is_log ev = true) pre
    ∧ Forall (λ ev, is_created ev = false) post
    ∧ LoopEntered ∈ post.
Proof.
  apply (X13_client_created_once_before_the_loop sample_lib (λ _, None)
           failing_backend accepting_backend failing_backend no_resource
           no_resource [CallGetAlerts None None] None sample_env_api_key
           sample_world sample_client).
  apply list_elem_of_lookup. exists 2%nat. reflexivity.
Defined.

(** ** More on the handlers *)

(** X14. [tag_alert] checks nothing: for every alert id and every list of
    tags, the empty string and the empty list included, it makes exactly
    one backend call through the wrapper, handing over the global client,
    the id under the name alert_id and the tags, unchanged, under the
    name tags_to_add (there is no argument named tags). *)
Theorem X14_tag_alert_passes_everything_on {B : Type} (tag : tool_impl B)
    (alert_id : string) (tags : list string) (w : world B) :
  ∃ kwargs : gmap string value,
    (tag_alert tag alert_id tags w).2
    = [WrapperEntered "tag_alert";
       BackendCalled "tag_alert" (http_client w) kwargs]
    ∧ backend (tag_alert tag alert_id tags w).1.2
      = (tag (http_client w) kwargs (backend w)).2
    ∧ kwargs !! "alert_id" = Some (VStr alert_id)
    ∧ kwargs !! "tags_to_add" = Some (VList tags)
    ∧ kwargs !! "tags" = None
    ∧ size kwargs = 2%nat.
Proof.
  exists {[ "alert_id" := VStr alert_id; "tags_to_add" := VList tags ]}.
  rewrite tag_alert_delegates, execute_tool_safely_returns.
  split; [reflexivity|]. split; [reflexivity|].
  split; [apply lookup_insert_eq|].
  split; [by rewrite lookup_insert_ne, lookup_singleton_eq|].
  split; [by rewrite lookup_insert_ne, lookup_singleton_ne|].
  rewrite map_size_insert_None by by rewrite lookup_singleton_ne.
  by rewrite map_size_singleton.
Qed.

Lemma valid_status_is_trimmed (s : string) :
  s ∈ ["open"; "acknowledged"; "closed"] → s ≠ "" ∧ PyStr.strip s = s.
Proof.
  rewrite !elem_of_cons, elem_of_nil. by intros [-> | [-> | [-> | []]]].
Qed.

(** X15. The status check is an exact match: the empty status and every
    status with whitespace at either end (which trimming would change)
    are rejected with the invalid-status text, without any backend
    call. *)
Theorem X15_status_is_matched_exactly {B : Type} (adj : tool_impl B)
    (alert_id new_status : string) (w : world B) :
  new_status = "" ∨ PyStr.strip new_status ≠ new_status →
  adjust_alert_status adj alert_id new_status w =
    (Returned
       (text_envelope
          ("Invalid status '" +:+ new_status
           +:+ "'. Must be one of ['open', 'acknowledged', 'closed'].")),
     w,
     [Log WARNING
        ("Tool 'adjust_alert_status' called with invalid status for alert "
         +:+ alert_id +:+ ": " +:+ new_status)]).
Proof.
  intros Hbad. apply adjust_alert_status_rejects.
  intros Hin. destruct (valid_status_is_trimmed new_status Hin) as [Hne Hfix].
  by destruct Hbad.
Qed.

Lemma X15_witness :
  adjust_alert_status accepting_backend "a1" " closed" sample_world =
    (Returned
       (text_envelope
          "Invalid status ' closed'. Must be one of ['open', 'acknowledged', 'closed']."),
     sample_world,
     [Log WARNING
        "Tool 'adjust_alert_status' called with invalid status for alert a1:  closed"]).
Proof.
  apply (X15_status_is_matched_exactly accepting_backend "a1" " closed"
           sample_world).
  right. discriminate.
Defined.

(** X16. The resource and prompt handlers add no error handling of their
    own: each writes one log record naming the URI it built and then
    returns or raises exactly what its resolver does on that URI, leaving
    the global client alone; the id can be read back from the URI, and a
    resource URI is never a prompt URI. *)
Theorem X16_resource_errors_pass_through {B : Type}
    (hr hp : string → B → outcome string * B) (w : world B) :
  (∀ alert_id,
     read_alert_resource hr alert_id w =
       ((hr ("alert://" +:+ alert_id) (backend w)).1,
        mkWorld (http_client w) (hr ("alert://" +:+ alert_id) (backend w)).2,
        [Log INFO ("Handling read_resource for URI: alert://"
                   +:+ alert_id)]))
  ∧ (∀ prompt_name,
       get_kibana_prompt hp prompt_name w =
         ((hp ("prompt://" +:+ prompt_name) (backend w)).1,
          mkWorld (http_client w)
            (hp ("prompt://" +:+ prompt_name) (backend w)).2,
          [Log INFO ("Handling get_prompt for URI: prompt://"
                     +:+ prompt_name)]))
  ∧ (∀ a b : string, "alert://" +:+ a = "alert://" +:+ b → a = b)
  ∧ (∀ a n : string, "alert://" +:+ a ≠ "prompt://" +:+ n).
Proof.
  split; [|split; [|split]].
  - intros alert_id.
    unfold read_alert_resource, call_raising, logger_info, emit, mbind,
      M_bind.
    by destruct (hr _ (backend w)) as [[s | e] b'].
  - intros prompt_name.
    unfold get_kibana_prompt, call_raising, logger_info, emit, mbind,
      M_bind.
    by destruct (hp _ (backend w)) as [[s | e] b'].
  - intros a b H. injection H as H. exact H.
  - intros a n H. discriminate H.
Qed.

(** ** Backend calls within a run *)

Section CallsInRun.

Context {B : Type}.

Lemma log_not_called (t : list event) (n : string)
    (cl : option AsyncClient) (k : gmap string value) :
  Forall (λ ev, is_log ev = true) t → BackendCalled n cl k ∉ t.
Proof. intros F Hin. rewrite Forall_forall in F. by specialize (F _ Hin). Qed.

End CallsInRun.

(** X17. Within a run every backend call happens while the loop is
    running and the client is open: it comes after the construction of
    the client it is handed and after the loop was entered, and before
    the loop is left and that client is closed; nothing is closed before
    it. *)
Theorem X17_backend_calls_use_an_open_client {B : Type} (lib : HttpxLibrary)
    (aclose_result : AsyncClient → option exn)
    (tag adj get : tool_impl B)
    (hr hp : string → B → outcome string * B)
    (incoming : list request) (loop_end : option exn)
    (environ : gmap string string) (w : world B)
    (n : string) (cl : option AsyncClient) (k : gmap string value) :
  BackendCalled n cl k
    ∈ (run_server lib aclose_result tag adj get hr hp incoming loop_end
         environ w).2 →
  ∃ c before after,
    cl = Some c
    ∧ (run_server lib aclose_result tag adj get hr hp incoming loop_end
         environ w).2 = before ++ BackendCalled n cl k :: after
    ∧ ClientCreated c ∈ before
    ∧ LoopEntered ∈ before
    ∧ Forall (λ ev, is_closing ev = false) before
    ∧ LoopLeft ∈ after
    ∧ ClientClosing c ∈ after.
Proof.
  destruct (run_trace_shape lib aclose_result tag adj get hr hp incoming
              loop_end environ w)
    as [F | (c0 & pre & ts & mid & tail & -> & Fp & Fs & Fm & Ft & G)].
  - intros Hin. by apply log_not_called in Hin.
  - intros Hin.
    assert (Hts : BackendCalled n cl k ∈ ts).
    { repeat (rewrite elem_of_app in Hin || rewrite elem_of_cons in Hin).
      destruct Hin as [Hin|[|[|[|[Hin|[|[Hin|[|Hin]]]]]]]]; try done;
        by apply log_not_called in Hin. }
    assert (cl = Some c0) as ->.
    { rewrite Forall_forall in G. exact (G _ Hts n cl k eq_refl). }
    destruct (list_elem_of_split _ _ Hts) as (l1 & l2 & ->).
    apply Forall_app in Fs as [F1 F2].
    exists c0,
      (pre ++ ClientCreated c0
         :: Log INFO "Starting FastMCP server run loop..."
         :: LoopEntered :: l1),
      (l2 ++ LoopLeft :: mid ++ ClientClosing c0 :: tail).
    split; [done|]. split; [by flatten_trace|].
    split; [rewrite elem_of_app, !elem_of_cons; auto|].
    split; [rewrite elem_of_app, !elem_of_cons; auto|].
    split.
    + apply Forall_app_2.
      * eapply Forall_impl; [exact Fp|]. by intros [].
      * repeat apply Forall_cons_2; try done.
        by apply during_serving_not_closing.
    + split.
      * rewrite elem_of_app, !elem_of_cons. auto.
      * rewrite elem_of_app, elem_of_cons, elem_of_app, elem_of_cons. auto.
Qed.

Lemma X17_witness :
  ∃ c before after,
    Some sample_client = Some c
    ∧ (run_server sample_lib (λ _, None) failing_backend accepting_backend
         failing_backend no_resource no_resource
         [CallGetAlerts None None] None sample_env_api_key sample_world).2
      = before
        ++ BackendCalled "get_alerts" (Some sample_client)
             {[ "limit" := VInt 20; "search_text" := VStr "*" ]}
        :: after
    ∧ ClientCreated c ∈ before
    ∧ LoopEntered ∈ before
    ∧ Forall (λ ev, is_closing ev = false) before
    ∧ LoopLeft ∈ after
    ∧ ClientClosing c ∈ after.
Proof.
  apply (X17_backend_calls_use_an_open_client sample_lib (λ _, None) failing_backend
           accepting_backend failing_backend no_resource no_resource
           [CallGetAlerts None None] None sample_env_api_key sample_world
           "get_alerts" (Some sample_client)
           {[ "limit" := VInt 20; "search_text" := VStr "*" ]}).
  apply list_elem_of_lookup. exists 6%nat. reflexivity.
Defined.

(** X18. After a run the global holds a client only if closing that
    client was attempted and raised; otherwise it is empty. *)
Theorem X18_global_after_a_run {B : Type} (lib : HttpxLibrary)
    (aclose_result : AsyncClient → option exn)
    (tag adj get : tool_impl B)
    (hr hp : string → B → outcome string * B)
    (incoming : list request) (loop_end : option exn)
    (environ : gmap string string) (w : world B) (c : AsyncClient) :
  http_client
    (run_server lib aclose_result tag adj get hr hp incoming loop_end
       environ w).1.2 = Some c →
  ClientClosing c
    ∈ (run_server lib aclose_result tag adj get hr hp incoming loop_end
         environ w).2
  ∧ ∃ e, aclose_result c = Some e.
Proof.
  destruct (configure_cases lib environ (mkWorld None (backend w)))
    as [(e0 & t & He & Ft & Hcfg) | (Hu & Hcred & c0 & m1 & m2 & Hcfg)].
  - by rewrite (run_server_unconfigured lib aclose_result tag adj get hr hp
                  incoming loop_end environ w e0 _ He Hcfg).
  - destruct (run_server_configured lib aclose_result tag adj get hr hp
                incoming loop_end environ w c0 _ Hcfg)
      as (b' & ts & _ & ->).
    cbn [fst snd http_client].
    destruct (aclose_result c0) as [e'|] eqn:Ha; [|done].
    intros [= <-]. split; [|by eexists].
    repeat (rewrite elem_of_app || rewrite elem_of_cons). auto 20.
Qed.

Lemma X18_witness :
  ClientClosing sample_client
    ∈ (run_server sample_lib (λ _, Some (RuntimeError "Event loop is closed"))
         failing_backend accepting_backend failing_backend no_resource
         no_resource [] None sample_env_api_key sample_world).2
  ∧ ∃ e, (λ _ : AsyncClient, Some (RuntimeError "Event loop is closed"))
           sample_client = Some e.
Proof.
  apply (X18_global_after_a_run sample_lib
           (λ _, Some (RuntimeError "Event loop is closed"))
           failing_backend accepting_backend failing_backend no_resource
           no_resource [] None sample_env_api_key sample_world
           sample_client).
  reflexivity.
Defined.
